(** * Passenger profiles of the ride-sharing service: completion and validation

    A shallow embedding of [users/models.py], [users/serializers.py] and
    [users/views.py], and the properties of the profile-completion
    evaluator, the validation rules and the two write paths. *)

From Stdlib Require Import ZArith String Ascii List QArith Qround SpecFloat Lia.
From stdpp Require Import gmap strings.

Local Open Scope Z_scope.

(** ** Python values used by the code *)

Module Py.

(** A [str] is a sequence of Unicode code points. *)
Definition str := list Z.

(** [ord(c)] of a character literal. *)
Definition ord (c : ascii) : Z := Z.of_N (N_of_ascii c).

(** A string literal of the source, read as its code points. *)
Definition lit (s : string) : str := map ord (list_ascii_of_string s).

(** The exceptions the embedded code can raise.  The detail of a
    [ValidationError] is a message or a dict from field name to message. *)
Inductive detail :=
| Msg (m : string)
| Fields (errors : gmap string string).

Inductive exn :=
| ValidationError (d : detail)
| ZeroDivisionError
| OverflowError
| ValueError
| IndexError
| IntegrityError
| DatabaseError.

(** A computation that returns or raises. *)
Inductive res (A : Type) :=
| Ok (a : A)
| Raise (e : exn).
Arguments Ok {A} a.
Arguments Raise {A} e.

Definition bind {A B} (c : res A) (k : A -> res B) : res B :=
  match c with
  | Ok a => k a
  | Raise e => Raise e
  end.

(** *** Truthiness *)

(** [bool(s)] for a string: true unless empty. *)
Definition truthy (s : str) : bool :=
  match s with
  | [] => false
  | _ :: _ => true
  end.

(** [all(xs)] for a list of booleans. *)
Definition all (xs : list bool) : bool := forallb (fun b => b) xs.

(** *** String methods *)

(** [s.startswith(p)] *)
Fixpoint startswith (s p : str) : bool :=
  match p, s with
  | [], _ => true
  | _ :: _, [] => false
  | c :: p', d :: s' => (c =? d) && startswith s' p'
  end.

(** [s.split(sep)] for a one-character separator: the pieces between the
    occurrences of [sep], at least one piece. *)
Fixpoint split (sep : Z) (s : str) : list str :=
  match s with
  | [] => [[]]
  | c :: s' =>
      if c =? sep then [] :: split sep s'
      else match split sep s' with
           | [] => [[c]]
           | piece :: pieces => (c :: piece) :: pieces
           end
  end.

(** [xs[i]] for [i >= 0]; raises IndexError out of range. *)
Definition index {A} (xs : list A) (i : nat) : res A :=
  match nth_error xs i with
  | Some x => Ok x
  | None => Raise IndexError
  end.

(** The code points for which [str.isspace] holds, which are those
    [str.strip()] removes. *)
Definition isspace (c : Z) : bool :=
  ((9 <=? c) && (c <=? 13))
  || ((28 <=? c) && (c <=? 32))
  || (c =? 133) || (c =? 160) || (c =? 5760)
  || ((8192 <=? c) && (c <=? 8202))
  || (c =? 8232) || (c =? 8233) || (c =? 8239) || (c =? 8287)
  || (c =? 12288).

Fixpoint lstrip (s : str) : str :=
  match s with
  | [] => []
  | c :: s' => if isspace c then lstrip s' else s
  end.

Definition rstrip (s : str) : str := rev (lstrip (rev s)).

(** [s.strip()] *)
Definition strip (s : str) : str := rstrip (lstrip s).

(** *** Floats

    A Python float is an IEEE 754 binary64 number; the operations round
    to nearest, ties to even. *)

Definition prec : Z := 53.
Definition emax : Z := 1024.

Definition float := spec_float.

(** The conversion of an int operand (exact below 2^53). *)
Definition float_of_int (n : Z) : float := binary_normalize prec emax n 0 false.

(** [a / b] on ints: true division, which for operands below 2^53 (all
    that the code divides) is the float division of the converted
    operands. *)
Definition truediv (a b : Z) : res float :=
  if b =? 0 then Raise ZeroDivisionError
  else Ok (SFdiv prec emax (float_of_int a) (float_of_int b)).

(** [x * n] for a float and an int. *)
Definition fmul_int (x : float) (n : Z) : float :=
  SFmul prec emax x (float_of_int n).

(** [int(x)]: truncation toward zero. *)
Definition int (x : float) : res Z :=
  match x with
  | S754_zero _ => Ok 0
  | S754_infinity _ => Raise OverflowError
  | S754_nan => Raise ValueError
  | S754_finite s m e =>
      let magnitude :=
        match e with
        | Z0 => Zpos m
        | Zpos k => Z.shiftl (Zpos m) (Zpos k)
        | Zneg k => Z.shiftr (Zpos m) (Zpos k)
        end in
      Ok (if s then - magnitude else magnitude)
  end.

End Py.

Import Py.

Declare Scope py_scope.
Delimit Scope py_scope with py.
Notation "x <- c ;; k" := (bind c (fun x => k))
  (at level 100, c at next level, right associativity) : py_scope.

(** ** [users/models.py] *)

Module Models.

(** The columns of [User] the profile code reads. *)
Record User := {
  pk : Z;
  email : str;
  user_type : str;
  phone_number : str;
  first_name : str;
  last_name : str;
  is_staff : bool;
  is_active : bool;
}.

(** A [Passenger] instance with its related [user] loaded.  The rating is
    kept in hundredths (two decimal places); the timestamps, which only
    the storage layer sets, are left out. *)
Record Passenger := {
  user : User;
  home_address : str;
  work_address : str;
  emergency_contact_name : str;
  emergency_contact_phone : str;
  preferred_payment_method : str;
  preferred_car_type : str;
  average_rating : Z;
  total_rides : Z;
  is_phone_verified : bool;
  is_profile_complete : bool;
}.

(** The primary key of a passenger row is its user's. *)
Definition user_id (p : Passenger) : Z := pk (user p).

(** [Passenger(user=user)]: every other column at its declared default. *)
Definition Passenger_defaults (u : User) : Passenger := {|
  user := u;
  home_address := [];
  work_address := [];
  emergency_contact_name := [];
  emergency_contact_phone := [];
  preferred_payment_method := lit "card";
  preferred_car_type := lit "economy";
  average_rating := 500;
  total_rides := 0;
  is_phone_verified := false;
  is_profile_complete := false;
|}.

Definition set_home_address (v : str) (p : Passenger) : Passenger :=
  {| user := user p; home_address := v; work_address := work_address p;
     emergency_contact_name := emergency_contact_name p;
     emergency_contact_phone := emergency_contact_phone p;
     preferred_payment_method := preferred_payment_method p;
     preferred_car_type := preferred_car_type p;
     average_rating := average_rating p; total_rides := total_rides p;
     is_phone_verified := is_phone_verified p;
     is_profile_complete := is_profile_complete p |}.

Definition set_work_address (v : str) (p : Passenger) : Passenger :=
  {| user := user p; home_address := home_address p; work_address := v;
     emergency_contact_name := emergency_contact_name p;
     emergency_contact_phone := emergency_contact_phone p;
     preferred_payment_method := preferred_payment_method p;
     preferred_car_type := preferred_car_type p;
     average_rating := average_rating p; total_rides := total_rides p;
     is_phone_verified := is_phone_verified p;
     is_profile_complete := is_profile_complete p |}.

Definition set_emergency_contact_name (v : str) (p : Passenger) : Passenger :=
  {| user := user p; home_address := home_address p;
     work_address := work_address p;
     emergency_contact_name := v;
     emergency_contact_phone := emergency_contact_phone p;
     preferred_payment_method := preferred_payment_method p;
     preferred_car_type := preferred_car_type p;
     average_rating := average_rating p; total_rides := total_rides p;
     is_phone_verified := is_phone_verified p;
     is_profile_complete := is_profile_complete p |}.

Definition set_emergency_contact_phone (v : str) (p : Passenger) : Passenger :=
  {| user := user p; home_address := home_address p;
     work_address := work_address p;
     emergency_contact_name := emergency_contact_name p;
     emergency_contact_phone := v;
     preferred_payment_method := preferred_payment_method p;
     preferred_car_type := preferred_car_type p;
     average_rating := average_rating p; total_rides := total_rides p;
     is_phone_verified := is_phone_verified p;
     is_profile_complete := is_profile_complete p |}.

Definition set_preferred_payment_method (v : str) (p : Passenger) : Passenger :=
  {| user := user p; home_address := home_address p;
     work_address := work_address p;
     emergency_contact_name := emergency_contact_name p;
     emergency_contact_phone := emergency_contact_phone p;
     preferred_payment_method := v;
     preferred_car_type := preferred_car_type p;
     average_rating := average_rating p; total_rides := total_rides p;
     is_phone_verified := is_phone_verified p;
     is_profile_complete := is_profile_complete p |}.

Definition set_preferred_car_type (v : str) (p : Passenger) : Passenger :=
  {| user := user p; home_address := home_address p;
     work_address := work_address p;
     emergency_contact_name := emergency_contact_name p;
     emergency_contact_phone := emergency_contact_phone p;
     preferred_payment_method := preferred_payment_method p;
     preferred_car_type := v;
     average_rating := average_rating p; total_rides := total_rides p;
     is_phone_verified := is_phone_verified p;
     is_profile_complete := is_profile_complete p |}.

Definition set_is_phone_verified (v : bool) (p : Passenger) : Passenger :=
  {| user := user p; home_address := home_address p;
     work_address := work_address p;
     emergency_contact_name := emergency_contact_name p;
     emergency_contact_phone := emergency_contact_phone p;
     preferred_payment_method := preferred_payment_method p;
     preferred_car_type := preferred_car_type p;
     average_rating := average_rating p; total_rides := total_rides p;
     is_phone_verified := v;
     is_profile_complete := is_profile_complete p |}.

Definition set_is_profile_complete (v : bool) (p : Passenger) : Passenger :=
  {| user := user p; home_address := home_address p;
     work_address := work_address p;
     emergency_contact_name := emergency_contact_name p;
     emergency_contact_phone := emergency_contact_phone p;
     preferred_payment_method := preferred_payment_method p;
     preferred_car_type := preferred_car_type p;
     average_rating := average_rating p; total_rides := total_rides p;
     is_phone_verified := is_phone_verified p;
     is_profile_complete := v |}.

(** A value of a serializer's data dict. *)
Inductive value :=
| VStr (s : str)
| VBool (b : bool).

(** Truthiness of [data.get(key)]: [None] and the empty string are false. *)
Definition truthy_get (v : option value) : bool :=
  match v with
  | None => false
  | Some (VStr s) => truthy s
  | Some (VBool b) => b
  end.

(** [setattr(instance, attr, value)] on the columns a serializer can
    write; any other attribute is not a column and leaves the row as is. *)
Definition setattr (p : Passenger) (attr : string) (v : value) : Passenger :=
  match v with
  | VStr s =>
      if String.eqb attr "home_address" then set_home_address s p
      else if String.eqb attr "work_address" then set_work_address s p
      else if String.eqb attr "emergency_contact_name"
      then set_emergency_contact_name s p
      else if String.eqb attr "emergency_contact_phone"
      then set_emergency_contact_phone s p
      else if String.eqb attr "preferred_payment_method"
      then set_preferred_payment_method s p
      else if String.eqb attr "preferred_car_type"
      then set_preferred_car_type s p
      else p
  | VBool b =>
      if String.eqb attr "is_phone_verified" then set_is_phone_verified b p
      else if String.eqb attr "is_profile_complete"
      then set_is_profile_complete b p
      else p
  end.

(** Assigning every entry of a dict to the instance. *)
Definition assign (data : gmap string value) (p : Passenger) : Passenger :=
  map_fold (fun attr v acc => setattr acc attr v) p data.

(** *** The passengers table

    Rows are keyed by [user_id].  An operation of the storage layer takes
    the table and returns its outcome with the table it leaves. *)

Definition M (A : Type) : Type := gmap Z Passenger -> res A * gmap Z Passenger.

Definition ret {A} (a : A) : M A := fun db => (Ok a, db).

Definition raise {A} (e : exn) : M A := fun db => (Raise e, db).

Definition mbind {A B} (c : M A) (k : A -> M B) : M B :=
  fun db =>
    match c db with
    | (Ok a, db') => k a db'
    | (Raise e, db') => (Raise e, db')
    end.

(** [Passenger.objects.create(user=user, **kwargs)]: an INSERT, refused
    when the key is taken. *)
Definition objects_create (u : User) (kwargs : gmap string value) : M Passenger :=
  fun db =>
    let p := assign kwargs (Passenger_defaults u) in
    match db !! user_id p with
    | Some _ => (Raise IntegrityError, db)
    | None => (Ok p, <[user_id p := p]> db)
    end.

(** [instance.save()]: writes every column of the row.  (It also stamps
    [updated_at], one of the timestamps the record leaves out.) *)
Definition save (p : Passenger) : M unit :=
  fun db => (Ok tt, <[user_id p := p]> db).

(** [instance.save(update_fields=['is_profile_complete'])]: an UPDATE of
    that one column, which fails when no row has the key. *)
Definition save_is_profile_complete (p : Passenger) : M unit :=
  fun db =>
    match db !! user_id p with
    | Some row =>
        (Ok tt, <[user_id p := set_is_profile_complete (is_profile_complete p) row]> db)
    | None => (Raise DatabaseError, db)
    end.

End Models.

Import Models.

Notation "x <- c ;;; k" := (mbind c (fun x => k))
  (at level 100, c at next level, right associativity) : py_scope.

Local Open Scope py_scope.

(** ** [users/serializers.py] *)

Module Serializers.

(** *** [PassengerSerializer] *)

Definition get_full_name (obj : Passenger) : res str :=
  if truthy (first_name (user obj)) && truthy (last_name (user obj))
  then Ok (strip (first_name (user obj) ++ lit " " ++ last_name (user obj)))
  else index (split (ord "@") (email (user obj))) 0.

Definition get_profile_completion_percentage (obj : Passenger) : res Z :=
  let total_fields := 6 in
  let completed_fields := 0 in
  let completed_fields :=
    if truthy (first_name (user obj))
    then completed_fields + 1 else completed_fields in
  let completed_fields :=
    if truthy (last_name (user obj))
    then completed_fields + 1 else completed_fields in
  let completed_fields :=
    if truthy (phone_number (user obj)) && is_phone_verified obj
    then completed_fields + 1 else completed_fields in
  let completed_fields :=
    if truthy (home_address obj)
    then completed_fields + 1 else completed_fields in
  let completed_fields :=
    if truthy (emergency_contact_name obj)
    then completed_fields + 1 else completed_fields in
  let completed_fields :=
    if truthy (emergency_contact_phone obj)
    then completed_fields + 1 else completed_fields in
  if total_fields >? 0
  then q <- truediv completed_fields total_fields ;; int (fmul_int q 100)
  else Ok 0.

Definition validate_emergency_contact_phone (value : str) : res str :=
  if truthy value && negb (startswith value (lit "+"))
  then Raise (ValidationError (Msg "Emergency contact phone must start with '+'."))
  else Ok value.

Definition validate (data : gmap string value) : res (gmap string value) :=
  let emergency_name := data !! "emergency_contact_name" in
  let emergency_phone := data !! "emergency_contact_phone" in
  if truthy_get emergency_name && negb (truthy_get emergency_phone)
  then Raise (ValidationError (Fields
         {[ "emergency_contact_phone" :=
              "Phone number is required when emergency contact name is provided." ]}))
  else Ok data.

(** The two rules above as the framework runs them on the values the
    serializer's fields hand over, that is, on values that have already
    been trimmed and have passed the fields' own checks (maximal length,
    the pattern of the column, the choices):
    [validate_emergency_contact_phone] on the value of that field when the
    dict has it, a failure filed under the field's name; then [validate]
    on the whole dict.  It is not the validation of a raw candidate, which
    those field checks change or refuse first. *)
Definition run_validation (data : gmap string value) : res (gmap string value) :=
  checked <-
    match data !! "emergency_contact_phone" with
    | Some (VStr value) =>
        match validate_emergency_contact_phone value with
        | Ok v => Ok (<["emergency_contact_phone" := VStr v]> data)
        | Raise (ValidationError (Msg m)) =>
            Raise (ValidationError (Fields {[ "emergency_contact_phone" := m ]}))
        | Raise e => Raise e
        end
    | _ => Ok data
    end ;;
  validate checked.

(** *** [PassengerCreateSerializer] *)

(** [self.context['request']] *)
Record Request := { request_user : User }.

Definition _calculate_profile_completion (passenger : Passenger) : bool :=
  let required_fields := [
    truthy (first_name (user passenger));
    truthy (last_name (user passenger));
    truthy (home_address passenger);
    truthy (emergency_contact_name passenger);
    truthy (emergency_contact_phone passenger);
    is_phone_verified passenger
  ] in
  all required_fields.

Definition create (request : Request) (validated_data : gmap string value)
  : M Passenger :=
  let user := request_user request in
  if bool_decide (user_type user <> lit "passenger")
  then raise (ValidationError
         (Msg "Only users with type 'passenger' can create passenger profiles."))
  else
    passenger <- objects_create user validated_data ;;;
    let passenger :=
      set_is_profile_complete (_calculate_profile_completion passenger) passenger in
    _ <- save passenger ;;;
    ret passenger.

End Serializers.

(** ** [users/views.py] *)

Module Views.

Import Serializers.

(** A [PassengerSerializer] bound to the row being updated, after its
    validation. *)
Record Serializer := {
  instance : Passenger;
  validated_data : gmap string value;
}.

(** [serializer.save()] on a bound serializer: the framework assigns the
    validated entries to the instance and saves it. *)
Definition serializer_save (serializer : Serializer) : M Passenger :=
  let instance := assign (validated_data serializer) (instance serializer) in
  _ <- save instance ;;;
  ret instance.

(** *** [PassengerListCreateView] *)

Definition perform_create (request : Request) (validated_data : gmap string value)
  : M unit :=
  _ <- create request validated_data ;;;
  ret tt.

(** *** [PassengerDetailView] *)

(** The list [completion_fields] that [perform_update] builds from the
    saved passenger. *)
Definition completion_fields (passenger : Passenger) : list bool := [
  truthy (first_name (user passenger));
  truthy (last_name (user passenger));
  truthy (home_address passenger);
  truthy (emergency_contact_name passenger);
  truthy (emergency_contact_phone passenger);
  is_phone_verified passenger
].

Definition perform_update (serializer : Serializer) : M unit :=
  passenger <- serializer_save serializer ;;;
  let passenger :=
    set_is_profile_complete (all (completion_fields passenger)) passenger in
  save_is_profile_complete passenger.

(** *** [PassengerStatsView] *)

Definition _calculate_completion_percentage (passenger : Passenger) : res Z :=
  let total_fields := 6 in
  let completed_fields := 0 in
  let completed_fields :=
    if truthy (first_name (user passenger))
    then completed_fields + 1 else completed_fields in
  let completed_fields :=
    if truthy (last_name (user passenger))
    then completed_fields + 1 else completed_fields in
  let completed_fields :=
    if truthy (phone_number (user passenger)) && is_phone_verified passenger
    then completed_fields + 1 else completed_fields in
  let completed_fields :=
    if truthy (home_address passenger)
    then completed_fields + 1 else completed_fields in
  let completed_fields :=
    if truthy (emergency_contact_name passenger)
    then completed_fields + 1 else completed_fields in
  let completed_fields :=
    if truthy (emergency_contact_phone passenger)
    then completed_fields + 1 else completed_fields in
  q <- truediv completed_fields total_fields ;; int (fmul_int q 100).

End Views.

Import Serializers Views.

(** ** The completion rule in the specification's words *)

Module Evaluator.

(** A string field is present when it is not the empty string. *)
Definition present (s : str) : bool := bool_decide (s <> []).

(** The six presence predicates, in the order the specification lists
    them; the third asks for the phone number and its verification. *)
Definition predicates (p : Passenger) : list bool :=
  [ present (first_name (user p));
    present (last_name (user p));
    present (phone_number (user p)) && is_phone_verified p;
    present (home_address p);
    present (emergency_contact_name p);
    present (emergency_contact_phone p) ].

Definition countTrue (bs : list bool) : Z :=
  Z.of_nat (length (List.filter (fun b => b) bs)).

(** floor(countTrue(predicates) / 6 * 100), over the rationals. *)
Definition percentage (p : Passenger) : Z :=
  Qfloor (inject_Z (countTrue (predicates p)) / inject_Z 6 * inject_Z 100)%Q.

(** The value [completed_fields] reaches after six increments guarded by
    the given conditions. *)
Definition count (b1 b2 b3 b4 b5 b6 : bool) : Z :=
  Z.b2z b1 + Z.b2z b2 + Z.b2z b3 + Z.b2z b4 + Z.b2z b5 + Z.b2z b6.

(** The fields the completeness flag asks for. *)
Definition complete (p : Passenger) : Prop :=
  first_name (user p) <> [] /\ last_name (user p) <> []
  /\ home_address p <> [] /\ emergency_contact_name p <> []
  /\ emergency_contact_phone p <> [] /\ is_phone_verified p = true.

(** A row is consistent when its stored flag is true exactly when the
    rule holds of its own fields; a table is when each of its rows is. *)
Definition flag_consistent (p : Passenger) : Prop :=
  is_profile_complete p = true <-> complete p.

Definition table_consistent (db : gmap Z Passenger) : Prop :=
  forall key row, db !! key = Some row -> flag_consistent row.

(** The part of [s] before its first [sep] (all of it when it has none). *)
Fixpoint before_first (sep : Z) (s : str) : str :=
  match s with
  | [] => []
  | c :: s' => if c =? sep then [] else c :: before_first sep s'
  end.

End Evaluator.

(** ** Sample identities and profiles *)

Module Samples.

Definition ada : User := {|
  pk := 7;
  email := lit "ada@example.org";
  user_type := lit "passenger";
  phone_number := lit "+15551234567";
  first_name := lit "Ada";
  last_name := lit "Lovelace";
  is_staff := false;
  is_active := true;
|}.

(** A passenger-type identity without a phone number. *)
Definition ada_no_phone : User := {|
  pk := 7;
  email := lit "ada@example.org";
  user_type := lit "passenger";
  phone_number := [];
  first_name := lit "Ada";
  last_name := lit "Lovelace";
  is_staff := false;
  is_active := true;
|}.

(** An identity whose first name begins with a space. *)
Definition ada_padded : User := {|
  pk := 7;
  email := lit "ada@example.org";
  user_type := lit "passenger";
  phone_number := lit "+15551234567";
  first_name := lit " Ada";
  last_name := lit "Lovelace";
  is_staff := false;
  is_active := true;
|}.

(** An identity with no names set. *)
Definition anonymous : User := {|
  pk := 8;
  email := lit "guest@example.org";
  user_type := lit "passenger";
  phone_number := lit "+15557654321";
  first_name := [];
  last_name := [];
  is_staff := false;
  is_active := true;
|}.

Definition rider : User := {|
  pk := 9;
  email := lit "bob@example.org";
  user_type := lit "rider";
  phone_number := lit "+15550000009";
  first_name := lit "Bob";
  last_name := lit "Boda";
  is_staff := false;
  is_active := true;
|}.

(** The identity of the specification's end-to-end scenario: no last name. *)
Definition ada_first_name_only : User := {|
  pk := 7;
  email := lit "ada@example.org";
  user_type := lit "passenger";
  phone_number := lit "+15551234567";
  first_name := lit "Ada";
  last_name := [];
  is_staff := false;
  is_active := true;
|}.

(** Its profile: verified, with a home address and no emergency contact. *)
Definition address_only_profile : Passenger := {|
  user := ada_first_name_only;
  home_address := lit "1 Main St";
  work_address := [];
  emergency_contact_name := [];
  emergency_contact_phone := [];
  preferred_payment_method := lit "card";
  preferred_car_type := lit "economy";
  average_rating := 500;
  total_rides := 0;
  is_phone_verified := true;
  is_profile_complete := false;
|}.

(** A verified profile with every contributing field set. *)
Definition full_profile (u : User) : Passenger := {|
  user := u;
  home_address := lit "1 Main St";
  work_address := [];
  emergency_contact_name := lit "Jane";
  emergency_contact_phone := lit "+1234567890";
  preferred_payment_method := lit "card";
  preferred_car_type := lit "economy";
  average_rating := 500;
  total_rides := 0;
  is_phone_verified := true;
  is_profile_complete := false;
|}.

Definition contact_fields : gmap string value :=
  {[ "home_address" := VStr (lit "1 Main St");
     "emergency_contact_name" := VStr (lit "Jane");
     "emergency_contact_phone" := VStr (lit "+1234567890") ]}.

End Samples.

(** ** Further code of [users/serializers.py] and [users/views.py] *)

Module Meta.

(** [PassengerCreateSerializer.Meta.fields] *)
Definition create_fields : gset string :=
  {[ "home_address"; "work_address"; "emergency_contact_name";
     "emergency_contact_phone"; "preferred_payment_method";
     "preferred_car_type" ]}.

(** The entry of a data dict for a string column, or the prior value. *)
Definition str_entry (data : gmap string value) (attr : string) (prior : str) : str :=
  match data !! attr with
  | Some (VStr s) => s
  | _ => prior
  end.

(** The entry of a data dict for a boolean column, or the prior value. *)
Definition bool_entry (data : gmap string value) (attr : string) (prior : bool)
  : bool :=
  match data !! attr with
  | Some (VBool b) => b
  | _ => prior
  end.

(** The row whose writable columns are the entries of [data] where it has
    them and the columns of [p] elsewhere. *)
Definition merged (data : gmap string value) (p : Passenger) : Passenger := {|
  user := user p;
  home_address := str_entry data "home_address" (home_address p);
  work_address := str_entry data "work_address" (work_address p);
  emergency_contact_name :=
    str_entry data "emergency_contact_name" (emergency_contact_name p);
  emergency_contact_phone :=
    str_entry data "emergency_contact_phone" (emergency_contact_phone p);
  preferred_payment_method :=
    str_entry data "preferred_payment_method" (preferred_payment_method p);
  preferred_car_type :=
    str_entry data "preferred_car_type" (preferred_car_type p);
  average_rating := average_rating p;
  total_rides := total_rides p;
  is_phone_verified := bool_entry data "is_phone_verified" (is_phone_verified p);
  is_profile_complete :=
    bool_entry data "is_profile_complete" (is_profile_complete p);
|}.

(** The row an update leaves: the merged row with its flag recomputed. *)
Definition updated_row (data : gmap string value) (p : Passenger) : Passenger :=
  set_is_profile_complete (all (completion_fields (merged data p))) (merged data p).

(** Every row of the table sits under its own [user_id]. *)
Definition table_keyed (db : gmap Z Passenger) : Prop :=
  forall key row, db !! key = Some row -> user_id row = key.

End Meta.

Module Access.

(** [get_queryset], which [PassengerListCreateView], [PassengerDetailView]
    and [PassengerStatsView] each define with the same body, over the rows
    of [Passenger.objects.select_related('user').all()]. *)
Definition get_queryset (request : Request) (all_rows : gmap Z Passenger)
  : gmap Z Passenger :=
  let queryset := all_rows in
  if negb (is_staff (request_user request))
  then filter (fun entry => user_id (snd entry) = pk (request_user request)) queryset
  else queryset.

(** The body of a response: [{'count': ..., 'results': ...}]. *)
Record ResponseData (R : Type) := {
  count : nat;
  results : list R;
}.
Arguments count {R} _.
Arguments results {R} _.

(** [passenger_list_simple]; [serialize] stands for the representation
    [PassengerSerializer] gives of one passenger. *)
Definition passenger_list_simple {R : Type} (serialize : Passenger -> R)
  (request : Request) (all_rows : gmap Z Passenger) : ResponseData R :=
  let passengers :=
    if is_staff (request_user request)
    then all_rows
    else filter (fun entry => user_id (snd entry) = pk (request_user request))
           all_rows in
  {| count := size passengers;
     results := map (fun entry => serialize (snd entry)) (map_to_list passengers) |}.

End Access.

(** ** Further code of [users/models.py] *)

Module Managers.

(** What a manager method does: it returns or raises as the storage call
    did, or raises a ValueError with a message of its own. *)
Inductive outcome (A : Type) :=
| Stored (r : res A)
| RaiseValueError (message : string).
Arguments Stored {A} r.
Arguments RaiseValueError {A} message.

(** [d.setdefault(key, default)] *)
Definition setdefault (key : string) (default : value) (d : gmap string value)
  : gmap string value :=
  match d !! key with
  | Some _ => d
  | None => <[key := default]> d
  end.

(** [x is not True] for the result of [d.get(key)]. *)
Definition is_not_True (x : option value) : bool :=
  match x with
  | Some (VBool true) => false
  | _ => true
  end.

Section CustomUserManager.

Context {Store UserObject : Type}.

(** [BaseUserManager.normalize_email], of the framework. *)
Variable normalize_email : str -> str.

(** The framework calls that end [create_user]: building the instance from
    the email and the extra fields, hashing the password into it, and
    saving it. *)
Variable save_new_user :
  str -> str -> gmap string value -> Store -> res UserObject * Store.

Definition create_user (email password : str) (extra_fields : gmap string value)
  : Store -> outcome UserObject * Store :=
  fun store =>
    if negb (truthy email)
    then (RaiseValueError "The Email must be set", store)
    else
      let email := normalize_email email in
      let '(user, store') := save_new_user email password extra_fields store in
      (Stored user, store').

Definition create_superuser (email password : str)
  (extra_fields : gmap string value) : Store -> outcome UserObject * Store :=
  fun store =>
    let extra_fields := setdefault "is_staff" (VBool true) extra_fields in
    let extra_fields := setdefault "is_superuser" (VBool true) extra_fields in
    let extra_fields := setdefault "is_active" (VBool true) extra_fields in
    if is_not_True (extra_fields !! "is_staff")
    then (RaiseValueError "Superuser must have is_staff=True.", store)
    else if is_not_True (extra_fields !! "is_superuser")
    then (RaiseValueError "Superuser must have is_superuser=True.", store)
    else create_user email password extra_fields store.

End CustomUserManager.

(** The defaults [create_superuser] fills in. *)
Definition superuser_defaults : gmap string value :=
  {[ "is_staff" := VBool true; "is_superuser" := VBool true;
     "is_active" := VBool true ]}.

End Managers.

Module Validators.

Section PhonePattern.

(** The class [\d] of the pattern: the Unicode decimal digits. *)
Variable is_decimal : Z -> bool.

(** [$]: the end of the string, or just before a newline that ends it. *)
Definition at_end (s : str) : bool :=
  match s with
  | [] => true
  | [c] => c =? 10
  | _ => false
  end.

(** [c?] followed by [rest]: with the character first, without it next. *)
Definition optional (c : Z) (rest : str -> bool) (s : str) : bool :=
  match s with
  | d :: s' => (d =? c) && rest s'
  | [] => false
  end
  || rest s.

(** [\d{lo,hi}] followed by [rest]: as many digits as allowed first, fewer
    next, never fewer than [lo]. *)
Fixpoint digits (lo hi : nat) (rest : str -> bool) (s : str) : bool :=
  match hi with
  | O => Nat.eqb lo 0 && rest s
  | S hi' =>
      match s with
      | d :: s' => is_decimal d && digits (Nat.pred lo) hi' rest s'
      | [] => false
      end
      || Nat.eqb lo 0 && rest s
  end.

(** Whether [^\+?1?\d{9,15}$] matches, which is when the RegexValidator of
    [phone_number] and of [emergency_contact_phone] lets a value through. *)
Definition phone_pattern (s : str) : bool :=
  optional (ord "+") (optional (ord "1") (digits 9 15 at_end)) s.

(** [RegexValidator(r'^\+?1?\d{9,15}$')(value)] *)
Definition phone_validator (value : str) : res unit :=
  if negb (phone_pattern value)
  then Raise (ValidationError (Msg "Enter a valid value."))
  else Ok tt.

End PhonePattern.

(** The decimal digits of ASCII, which [\d] contains. *)
Definition ascii_digit (c : Z) : bool := (48 <=? c) && (c <=? 57).

End Validators.

(** ** The completion percentage *)

Section Percentage.

Import Evaluator.

(** Splits a goal about a count [k] between 0 and 6 into its seven cases. *)
Ltac each_count k :=
  let Hcases := fresh "Hcases" in
  assert (Hcases : k = 0 \/ k = 1 \/ k = 2 \/ k = 3 \/ k = 4 \/ k = 5 \/ k = 6)
    by lia;
  repeat (destruct Hcases as [-> | Hcases]); try subst k.

Lemma present_truthy (s : str) : Evaluator.present s = truthy s.
Proof. destruct s; reflexivity. Qed.

(** The float computation [int(k / 6 * 100)] agrees with the integer
    quotient for each of the seven counts. *)
Lemma int_truediv_mul (k : Z) :
  0 <= k <= 6 ->
  (q <- truediv k 6 ;; int (fmul_int q 100)) = Ok (k * 100 / 6).
Proof.
  intros Hk. each_count k; vm_compute; reflexivity.
Qed.

(** The rational formula, for each of the seven counts. *)
Lemma Qfloor_percentage (k : Z) :
  0 <= k <= 6 ->
  Qfloor (inject_Z k / inject_Z 6 * inject_Z 100)%Q = k * 100 / 6.
Proof.
  intros Hk. each_count k; vm_compute; reflexivity.
Qed.

Lemma count_range b1 b2 b3 b4 b5 b6 : 0 <= count b1 b2 b3 b4 b5 b6 <= 6.
Proof. destruct b1, b2, b3, b4, b5, b6; vm_compute; split; discriminate. Qed.

Lemma serializer_percentage_count (obj : Passenger) :
  get_profile_completion_percentage obj =
  (q <- truediv
          (count (truthy (first_name (user obj))) (truthy (last_name (user obj)))
                 (truthy (phone_number (user obj)) && is_phone_verified obj)
                 (truthy (home_address obj))
                 (truthy (emergency_contact_name obj))
                 (truthy (emergency_contact_phone obj))) 6 ;;
   int (fmul_int q 100)).
Proof.
  unfold get_profile_completion_percentage, count.
  destruct (truthy (first_name (user obj))), (truthy (last_name (user obj))),
    (truthy (phone_number (user obj)) && is_phone_verified obj),
    (truthy (home_address obj)), (truthy (emergency_contact_name obj)),
    (truthy (emergency_contact_phone obj)); reflexivity.
Qed.

Lemma stats_percentage_count (passenger : Passenger) :
  _calculate_completion_percentage passenger =
  (q <- truediv
          (count (truthy (first_name (user passenger)))
                 (truthy (last_name (user passenger)))
                 (truthy (phone_number (user passenger))
                  && is_phone_verified passenger)
                 (truthy (home_address passenger))
                 (truthy (emergency_contact_name passenger))
                 (truthy (emergency_contact_phone passenger))) 6 ;;
   int (fmul_int q 100)).
Proof.
  unfold _calculate_completion_percentage, count.
  destruct (truthy (first_name (user passenger))),
    (truthy (last_name (user passenger))),
    (truthy (phone_number (user passenger)) && is_phone_verified passenger),
    (truthy (home_address passenger)),
    (truthy (emergency_contact_name passenger)),
    (truthy (emergency_contact_phone passenger)); reflexivity.
Qed.

Lemma countTrue_predicates (p : Passenger) :
  Evaluator.countTrue (Evaluator.predicates p) =
  count (truthy (first_name (user p))) (truthy (last_name (user p)))
        (truthy (phone_number (user p)) && is_phone_verified p)
        (truthy (home_address p)) (truthy (emergency_contact_name p))
        (truthy (emergency_contact_phone p)).
Proof.
  unfold Evaluator.predicates. rewrite !present_truthy.
  destruct (truthy (first_name (user p))), (truthy (last_name (user p))),
    (truthy (phone_number (user p)) && is_phone_verified p),
    (truthy (home_address p)), (truthy (emergency_contact_name p)),
    (truthy (emergency_contact_phone p)); reflexivity.
Qed.

Lemma percentage_values (k : Z) :
  0 <= k <= 6 ->
  0 <= k * 100 / 6 <= 100 /\ In (k * 100 / 6) [0; 16; 33; 50; 66; 83; 100].
Proof.
  intros Hk. each_count k;
    (split; [vm_compute; split; discriminate | vm_compute; tauto]).
Qed.

(** C1. For every identity/profile pair, both percentage functions return
    floor(countTrue(predicates) / 6 * 100) over the six presence
    predicates; the value lies in [0,100] and is one of 0, 16, 33, 50, 66,
    83, 100. *)
Theorem completion_percentage_formula (obj : Passenger) :
  get_profile_completion_percentage obj = Ok (Evaluator.percentage obj)
  /\ _calculate_completion_percentage obj = Ok (Evaluator.percentage obj)
  /\ 0 <= Evaluator.percentage obj <= 100
  /\ In (Evaluator.percentage obj) [0; 16; 33; 50; 66; 83; 100].
Proof.
  unfold Evaluator.percentage.
  rewrite serializer_percentage_count, stats_percentage_count,
    countTrue_predicates.
  pose proof (count_range
    (truthy (first_name (user obj))) (truthy (last_name (user obj)))
    (truthy (phone_number (user obj)) && is_phone_verified obj)
    (truthy (home_address obj)) (truthy (emergency_contact_name obj))
    (truthy (emergency_contact_phone obj))) as Hk.
  rewrite (Qfloor_percentage _ Hk), (int_truediv_mul _ Hk).
  destruct (percentage_values _ Hk) as [Hrange Hset].
  repeat split; try reflexivity; try apply Hrange; exact Hset.
Qed.


End Percentage.

(** ** The completeness flag *)

Section Completeness.

Lemma truthy_nonempty (s : str) : truthy s = true <-> s <> [].
Proof. destruct s; simpl; split; congruence. Qed.

Lemma all_six (b1 b2 b3 b4 b5 b6 : bool) :
  all [b1; b2; b3; b4; b5; b6] = true <->
  b1 = true /\ b2 = true /\ b3 = true /\ b4 = true /\ b5 = true /\ b6 = true.
Proof. destruct b1, b2, b3, b4, b5, b6; simpl; intuition congruence. Qed.

Lemma calculate_profile_completion_complete (passenger : Passenger) :
  _calculate_profile_completion passenger = true <-> Evaluator.complete passenger.
Proof.
  unfold _calculate_profile_completion, Evaluator.complete.
  rewrite all_six, !truthy_nonempty. reflexivity.
Qed.

Lemma completion_fields_complete (passenger : Passenger) :
  all (completion_fields passenger) = true <-> Evaluator.complete passenger.
Proof.
  unfold completion_fields, Evaluator.complete.
  rewrite all_six, !truthy_nonempty. reflexivity.
Qed.

(** The end-to-end scenario: three predicates of six hold. *)
Example scenario_half_complete :
  get_profile_completion_percentage Samples.address_only_profile = Ok 50
  /\ _calculate_completion_percentage Samples.address_only_profile = Ok 50
  /\ _calculate_profile_completion Samples.address_only_profile = false.
Proof. repeat split. Qed.

(** C2. The completeness boolean, in the create serializer and in the
    update view, is true exactly when the five name, address and contact
    strings are non-empty and the phone is verified; a profile whose
    identity has no phone number can be complete. *)
Theorem is_complete_rule :
  (forall passenger,
      _calculate_profile_completion passenger = true
      <-> Evaluator.complete passenger)
  /\ (forall passenger,
      all (completion_fields passenger) = true <-> Evaluator.complete passenger)
  /\ (phone_number (user (Samples.full_profile Samples.ada_no_phone)) = []
      /\ _calculate_profile_completion
           (Samples.full_profile Samples.ada_no_phone) = true
      /\ all (completion_fields
                (Samples.full_profile Samples.ada_no_phone)) = true).
Proof.
  split; [exact calculate_profile_completion_complete |].
  split; [exact completion_fields_complete |].
  repeat split.
Qed.

(** C3. Two identity/profile pairs that agree on the two names, the home
    address, the two emergency-contact fields and the verification flag
    get the same completeness boolean, whatever their phone numbers. *)
Theorem is_complete_ignores_phone_number (p1 p2 : Passenger) :
  first_name (user p1) = first_name (user p2) ->
  last_name (user p1) = last_name (user p2) ->
  home_address p1 = home_address p2 ->
  emergency_contact_name p1 = emergency_contact_name p2 ->
  emergency_contact_phone p1 = emergency_contact_phone p2 ->
  is_phone_verified p1 = is_phone_verified p2 ->
  _calculate_profile_completion p1 = _calculate_profile_completion p2
  /\ all (completion_fields p1) = all (completion_fields p2).
Proof.
  intros Hfirst Hlast Hhome Hname Hphone Hverified.
  unfold _calculate_profile_completion, completion_fields.
  rewrite Hfirst, Hlast, Hhome, Hname, Hphone, Hverified.
  split; reflexivity.
Qed.

Lemma is_complete_ignores_phone_number_witness :
  phone_number (user (Samples.full_profile Samples.ada))
    <> phone_number (user (Samples.full_profile Samples.ada_no_phone))
  /\ _calculate_profile_completion (Samples.full_profile Samples.ada)
     = _calculate_profile_completion (Samples.full_profile Samples.ada_no_phone)
  /\ all (completion_fields (Samples.full_profile Samples.ada))
     = all (completion_fields (Samples.full_profile Samples.ada_no_phone)).
Proof.
  split; [vm_compute; discriminate |].
  apply (is_complete_ignores_phone_number
           (Samples.full_profile Samples.ada)
           (Samples.full_profile Samples.ada_no_phone)); reflexivity.
Defined.

(** C9. A percentage of 100 implies the completeness boolean; the
    converse fails: with no phone number, the five other fields set and
    the phone verified, the boolean is true and the percentage is 83. *)
Theorem full_percentage_implies_complete :
  (forall obj,
      get_profile_completion_percentage obj = Ok 100 ->
      _calculate_profile_completion obj = true)
  /\ (phone_number (user (Samples.full_profile Samples.ada_no_phone)) = []
      /\ _calculate_profile_completion
           (Samples.full_profile Samples.ada_no_phone) = true
      /\ get_profile_completion_percentage
           (Samples.full_profile Samples.ada_no_phone) = Ok 83).
Proof.
  split; [| repeat split].
  intros obj. rewrite serializer_percentage_count.
  unfold _calculate_profile_completion.
  destruct (truthy (first_name (user obj))), (truthy (last_name (user obj))),
    (truthy (phone_number (user obj))), (is_phone_verified obj),
    (truthy (home_address obj)), (truthy (emergency_contact_name obj)),
    (truthy (emergency_contact_phone obj));
    intros H; try reflexivity; vm_compute in H; discriminate.
Qed.

Lemma full_percentage_implies_complete_witness :
  get_profile_completion_percentage (Samples.full_profile Samples.ada) = Ok 100
  /\ _calculate_profile_completion (Samples.full_profile Samples.ada) = true.
Proof.
  split; [reflexivity |].
  apply (proj1 full_percentage_implies_complete
           (Samples.full_profile Samples.ada)).
  reflexivity.
Defined.

End Completeness.

(** ** The write paths *)

Section WritePaths.

Implicit Types (db : gmap Z Passenger) (data : gmap string value).

Lemma setattr_user (p : Passenger) (attr : string) (v : value) :
  user (setattr p attr v) = user p.
Proof.
  unfold setattr. destruct v;
    repeat match goal with
           | |- context [if ?c then _ else _] => destruct c
           end; reflexivity.
Qed.

(** Assigning serializer data never changes whose profile it is. *)
Lemma assign_user data (p : Passenger) : user (assign data p) = user p.
Proof.
  unfold assign.
  apply (map_fold_weak_ind (fun acc _ => user acc = user p)).
  - reflexivity.
  - intros attr v m acc _ IH. rewrite setattr_user. exact IH.
Qed.

Lemma set_is_profile_complete_rule (b : bool) (p : Passenger) :
  Evaluator.complete (set_is_profile_complete b p) <-> Evaluator.complete p.
Proof. reflexivity. Qed.

(** What [create] does for a passenger-type identity without a profile. *)
Lemma create_inserts (request : Request) data db :
  user_type (request_user request) = lit "passenger" ->
  db !! pk (request_user request) = None ->
  let inserted := assign data (Passenger_defaults (request_user request)) in
  let passenger :=
    set_is_profile_complete (_calculate_profile_completion inserted) inserted in
  create request data db = (Ok passenger, <[user_id passenger := passenger]> db).
Proof.
  intros Htype Hfree inserted passenger.
  unfold create. rewrite bool_decide_eq_false_2 by (intros Hne; apply Hne, Htype).
  unfold mbind, objects_create. fold inserted.
  assert (Hkey : user_id inserted = pk (request_user request)).
  { unfold user_id, inserted. rewrite assign_user. reflexivity. }
  rewrite Hkey, Hfree. unfold save, ret. fold passenger.
  change (user_id passenger) with (user_id inserted).
  rewrite Hkey, insert_insert_eq. reflexivity.
Qed.

(** [create] fails without touching the table in every other case. *)
Lemma create_refuses (request : Request) data db :
  user_type (request_user request) <> lit "passenger"
  \/ db !! pk (request_user request) <> None ->
  exists e, create request data db = (Raise e, db).
Proof.
  intros Hcase. unfold create.
  destruct (bool_decide (user_type (request_user request) <> lit "passenger"))
    eqn:Htype.
  - eexists. reflexivity.
  - apply bool_decide_eq_false in Htype.
    destruct Hcase as [Hne | Htaken]; [contradiction |].
    unfold mbind, objects_create, user_id. rewrite assign_user. simpl.
    destruct (db !! pk (request_user request)); [| congruence].
    eexists. reflexivity.
Qed.

(** What [perform_update] leaves in the table. *)
Lemma perform_update_stores (serializer : Serializer) db :
  let saved := assign (validated_data serializer) (instance serializer) in
  let passenger :=
    set_is_profile_complete (all (completion_fields saved)) saved in
  perform_update serializer db = (Ok tt, <[user_id passenger := passenger]> db).
Proof.
  intros saved passenger.
  unfold perform_update, serializer_save, mbind, save, ret.
  fold saved. fold passenger. unfold save_is_profile_complete.
  change (user_id passenger) with (user_id saved).
  rewrite lookup_insert_eq, insert_insert_eq. reflexivity.
Qed.

(** Every call of [create] either fails and leaves the table as it was, or
    inserts a consistent row. *)
Lemma create_outcome (request : Request) data db :
  (exists e, create request data db = (Raise e, db))
  \/ (exists passenger,
        create request data db = (Ok passenger, <[user_id passenger := passenger]> db)
        /\ Evaluator.flag_consistent passenger).
Proof.
  destruct (decide (user_type (request_user request) = lit "passenger"))
    as [Htype | Htype];
    [destruct (db !! pk (request_user request)) eqn:Hrow |].
  - left. apply create_refuses. right. congruence.
  - right. eexists. split; [apply (create_inserts request data db Htype Hrow) |].
    unfold Evaluator.flag_consistent. simpl.
    rewrite set_is_profile_complete_rule.
    apply calculate_profile_completion_complete.
  - left. apply create_refuses. left. exact Htype.
Qed.

(** [perform_update] always succeeds and leaves a consistent row. *)
Lemma perform_update_outcome (serializer : Serializer) db :
  exists passenger,
    perform_update serializer db = (Ok tt, <[user_id passenger := passenger]> db)
    /\ user passenger = user (instance serializer)
    /\ Evaluator.flag_consistent passenger.
Proof.
  pose (saved := assign (validated_data serializer) (instance serializer)).
  exists (set_is_profile_complete (all (completion_fields saved)) saved).
  split; [apply perform_update_stores |].
  split; [exact (assign_user _ _) |].
  unfold Evaluator.flag_consistent. simpl.
  rewrite set_is_profile_complete_rule. apply completion_fields_complete.
Qed.

Lemma table_consistent_insert db (row : Passenger) :
  Evaluator.table_consistent db ->
  Evaluator.flag_consistent row ->
  Evaluator.table_consistent (<[user_id row := row]> db).
Proof.
  intros Hdb Hrow key row' Hget.
  destruct (decide (user_id row = key)) as [<- | Hne].
  - rewrite lookup_insert_eq in Hget. injection Hget as <-. exact Hrow.
  - rewrite lookup_insert_ne in Hget by exact Hne. exact (Hdb key row' Hget).
Qed.

(** C5. After a create or an update, the row in the table carries a
    completeness flag that is true exactly when the rule holds of that
    row's own fields, and a table whose rows were all consistent stays so
    whatever the outcome.  A create by a passenger-type identity without a
    profile succeeds, and an update always does. *)
Theorem stored_flag_consistent :
  (forall request data db passenger db',
      create request data db = (Ok passenger, db') ->
      db' !! user_id passenger = Some passenger
      /\ Evaluator.flag_consistent passenger)
  /\ (forall serializer db,
      exists passenger db',
        perform_update serializer db = (Ok tt, db')
        /\ user passenger = user (instance serializer)
        /\ db' !! user_id (instance serializer) = Some passenger
        /\ Evaluator.flag_consistent passenger)
  /\ (forall request data db outcome db',
      Evaluator.table_consistent db ->
      create request data db = (outcome, db') ->
      Evaluator.table_consistent db')
  /\ (forall serializer db outcome db',
      Evaluator.table_consistent db ->
      perform_update serializer db = (outcome, db') ->
      Evaluator.table_consistent db')
  /\ (forall request data db,
      user_type (request_user request) = lit "passenger" ->
      db !! pk (request_user request) = None ->
      exists passenger db', create request data db = (Ok passenger, db')).
Proof.
  repeat apply conj.
  - intros request data db passenger db' Hcreate.
    destruct (create_outcome request data db)
      as [[e He] | (row & Hrow & Hflag)]; [congruence |].
    rewrite Hrow in Hcreate. injection Hcreate as <- <-.
    split; [apply lookup_insert_eq | exact Hflag].
  - intros serializer db.
    destruct (perform_update_outcome serializer db) as (row & Hrow & Huser & Hflag).
    exists row, (<[user_id row := row]> db).
    split; [exact Hrow |]. split; [exact Huser |]. split; [| exact Hflag].
    replace (user_id (instance serializer)) with (user_id row)
      by (unfold user_id; rewrite Huser; reflexivity).
    apply lookup_insert_eq.
  - intros request data db outcome db' Hdb Hcreate.
    destruct (create_outcome request data db)
      as [[e He] | (row & Hrow & Hflag)].
    + rewrite He in Hcreate. injection Hcreate as _ <-. exact Hdb.
    + rewrite Hrow in Hcreate. injection Hcreate as _ <-.
      apply table_consistent_insert; assumption.
  - intros serializer db outcome db' Hdb Hupdate.
    destruct (perform_update_outcome serializer db) as (row & Hrow & _ & Hflag).
    rewrite Hrow in Hupdate. injection Hupdate as _ <-.
    apply table_consistent_insert; assumption.
  - intros request data db Htype Hrow.
    rewrite (create_inserts request data db Htype Hrow). eauto.
Qed.

Lemma stored_flag_consistent_witness :
  (exists passenger db',
      create {| request_user := Samples.ada |} Samples.contact_fields ∅
        = (Ok passenger, db')
      /\ db' !! user_id passenger = Some passenger
      /\ Evaluator.flag_consistent passenger
      /\ Evaluator.table_consistent db')
  /\ Evaluator.table_consistent
       (snd (perform_update
               {| instance := Samples.full_profile Samples.ada;
                  validated_data := Samples.contact_fields |} ∅)).
Proof.
  assert (Hempty : Evaluator.table_consistent ∅)
    by (intros key row Hget; rewrite lookup_empty in Hget; discriminate).
  destruct stored_flag_consistent
    as (Hcreate & _ & Htable & Hupdate & Hsucceeds).
  split.
  - destruct (Hsucceeds {| request_user := Samples.ada |} Samples.contact_fields ∅)
      as (passenger & db' & Hrun); [reflexivity | reflexivity |].
    exists passenger, db'. split; [exact Hrun |].
    destruct (Hcreate _ _ _ _ _ Hrun) as [Hstored Hflag].
    split; [exact Hstored |]. split; [exact Hflag |].
    exact (Htable {| request_user := Samples.ada |} Samples.contact_fields ∅
             (Ok passenger) db' Hempty Hrun).
  - exact (Hupdate _ ∅ _ _ Hempty (surjective_pairing _)).
Defined.

(** C8. A create request by an identity whose type is not passenger
    fails with the validation error that only passengers may create a
    profile, and the table is left as it was. *)
Theorem create_forbidden_for_non_passenger (request : Request) data db :
  user_type (request_user request) <> lit "passenger" ->
  create request data db =
    (Raise (ValidationError
       (Msg "Only users with type 'passenger' can create passenger profiles.")),
     db)
  /\ perform_create request data db =
    (Raise (ValidationError
       (Msg "Only users with type 'passenger' can create passenger profiles.")),
     db).
Proof.
  intros Htype. unfold perform_create, mbind, create.
  rewrite bool_decide_eq_true_2 by exact Htype. split; reflexivity.
Qed.

Lemma create_forbidden_for_rider_witness :
  user_type Samples.rider = lit "rider"
  /\ create {| request_user := Samples.rider |} Samples.contact_fields ∅ =
       (Raise (ValidationError
          (Msg "Only users with type 'passenger' can create passenger profiles.")),
        ∅).
Proof.
  split; [reflexivity |].
  apply (create_forbidden_for_non_passenger
           {| request_user := Samples.rider |} Samples.contact_fields ∅).
  vm_compute. discriminate.
Defined.

End WritePaths.

(** ** The validation rules *)

Section Validation.

Implicit Types (data : gmap string value) (value : str).

(** The format rule accepts the empty string and whatever starts with a
    plus sign. *)
Lemma validate_emergency_contact_phone_accepts value :
  value = [] \/ startswith value (lit "+") = true ->
  validate_emergency_contact_phone value = Ok value.
Proof.
  unfold validate_emergency_contact_phone.
  intros [-> | ->]; [reflexivity |]. rewrite andb_false_r. reflexivity.
Qed.

Lemma validate_emergency_contact_phone_rejects value :
  value <> [] ->
  startswith value (lit "+") = false ->
  validate_emergency_contact_phone value =
    Raise (ValidationError (Msg "Emergency contact phone must start with '+'.")).
Proof.
  intros Hvalue Hplus. unfold validate_emergency_contact_phone.
  apply truthy_nonempty in Hvalue. rewrite Hvalue, Hplus. reflexivity.
Qed.

Lemma validate_requires_phone data :
  truthy_get (data !! "emergency_contact_name") = true ->
  truthy_get (data !! "emergency_contact_phone") = false ->
  validate data =
    Raise (ValidationError (Fields
      {[ "emergency_contact_phone" :=
           "Phone number is required when emergency contact name is provided." ]})).
Proof. intros Hname Hphone. unfold validate. rewrite Hname, Hphone. reflexivity. Qed.

Lemma validate_passes data :
  truthy_get (data !! "emergency_contact_name") = false
  \/ truthy_get (data !! "emergency_contact_phone") = true ->
  validate data = Ok data.
Proof.
  unfold validate. intros [-> | ->]; [reflexivity |].
  rewrite andb_false_r. reflexivity.
Qed.

(** The field rule hands back the value it was given, so on a candidate
    it accepts the dict reaches [validate] unchanged. *)
Lemma run_validation_accepted_phone data :
  (forall value,
      data !! "emergency_contact_phone" = Some (VStr value) ->
      value = [] \/ startswith value (lit "+") = true) ->
  run_validation data = validate data.
Proof.
  intros Hphone. unfold run_validation.
  destruct (data !! "emergency_contact_phone") as [[value | b] |] eqn:Hget;
    try reflexivity.
  rewrite (validate_emergency_contact_phone_accepts value (Hphone value eq_refl)).
  simpl. rewrite insert_id by exact Hget. reflexivity.
Qed.

End Validation.

(** ** The display name *)

Section FullName.

Implicit Types (s local rest : str).

Lemma split_before_first (sep : Z) s :
  exists pieces, split sep s = Evaluator.before_first sep s :: pieces.
Proof.
  induction s as [| c s IH]; simpl.
  - eexists. reflexivity.
  - destruct (c =? sep); [eexists; reflexivity |].
    destruct IH as [pieces ->]. eexists. reflexivity.
Qed.

Lemma before_first_app (sep : Z) local rest :
  ~ In sep local ->
  Evaluator.before_first sep (local ++ sep :: rest) = local.
Proof.
  induction local as [| c local IH]; simpl; intros Hnotin.
  - rewrite Z.eqb_refl. reflexivity.
  - destruct (Z.eqb_spec c sep) as [-> | _]; [tauto |].
    rewrite IH by tauto. reflexivity.
Qed.

Lemma before_first_absent (sep : Z) s :
  ~ In sep s -> Evaluator.before_first sep s = s.
Proof.
  induction s as [| c s IH]; simpl; intros Hnotin; [reflexivity |].
  destruct (Z.eqb_spec c sep) as [-> | _]; [tauto |].
  rewrite IH by tauto. reflexivity.
Qed.

Lemma lstrip_length s : (length (lstrip s) <= length s)%nat.
Proof.
  induction s as [| c s IH]; simpl; [lia |].
  destruct (isspace c); simpl; lia.
Qed.

Lemma lstrip_app_fixed s rest :
  s <> [] -> lstrip s = s -> lstrip (s ++ rest) = s ++ rest.
Proof.
  destruct s as [| c s]; [congruence |]. intros _. simpl.
  destruct (isspace c); [| reflexivity].
  intros Hfixed. pose proof (lstrip_length s) as Hlen.
  rewrite Hfixed in Hlen. simpl in Hlen. lia.
Qed.

Lemma rstrip_app_fixed s rest :
  s <> [] -> rstrip s = s -> rstrip (rest ++ s) = rest ++ s.
Proof.
  unfold rstrip. intros Hnonempty Hfixed.
  assert (Hrev : lstrip (rev s) = rev s)
    by (rewrite <- Hfixed at 2; rewrite rev_involutive; reflexivity).
  rewrite rev_app_distr, lstrip_app_fixed, rev_app_distr, !rev_involutive;
    [reflexivity | | exact Hrev].
  intros Hnil. apply Hnonempty. rewrite <- (rev_involutive s), Hnil. reflexivity.
Qed.

Lemma strip_full_name (first last : str) :
  first <> [] -> last <> [] -> lstrip first = first -> rstrip last = last ->
  strip (first ++ lit " " ++ last) = first ++ lit " " ++ last.
Proof.
  intros Hfirst Hlast Hleft Hright. unfold strip.
  rewrite lstrip_app_fixed by assumption.
  rewrite app_assoc. apply rstrip_app_fixed; assumption.
Qed.

(** C10, as the code has it. When both names are non-empty the full name
    is the first name, a space and the last name with the whitespace at
    both ends stripped, which is that very string when the first name
    does not begin and the last name does not end with whitespace;
    otherwise it is the part of the email before its first at sign, the
    whole email when it has none. *)
Theorem full_name_stripped_or_email_local (obj : Passenger) :
  (first_name (user obj) <> [] -> last_name (user obj) <> [] ->
   get_full_name obj =
     Ok (strip (first_name (user obj) ++ lit " " ++ last_name (user obj))))
  /\ (first_name (user obj) <> [] -> last_name (user obj) <> [] ->
      lstrip (first_name (user obj)) = first_name (user obj) ->
      rstrip (last_name (user obj)) = last_name (user obj) ->
      get_full_name obj =
        Ok (first_name (user obj) ++ lit " " ++ last_name (user obj)))
  /\ (first_name (user obj) = [] \/ last_name (user obj) = [] ->
      forall local rest,
        email (user obj) = local ++ ord "@" :: rest ->
        ~ In (ord "@") local ->
        get_full_name obj = Ok local)
  /\ (first_name (user obj) = [] \/ last_name (user obj) = [] ->
      ~ In (ord "@") (email (user obj)) ->
      get_full_name obj = Ok (email (user obj))).
Proof.
  assert (Hnames : first_name (user obj) <> [] -> last_name (user obj) <> [] ->
    get_full_name obj =
      Ok (strip (first_name (user obj) ++ lit " " ++ last_name (user obj)))).
  { intros Hfirst Hlast. unfold get_full_name.
    apply truthy_nonempty in Hfirst, Hlast. rewrite Hfirst, Hlast. reflexivity. }
  assert (Hemail : first_name (user obj) = [] \/ last_name (user obj) = [] ->
    get_full_name obj =
      Ok (Evaluator.before_first (ord "@") (email (user obj)))).
  { intros Hempty. unfold get_full_name.
    replace (truthy (first_name (user obj)) && truthy (last_name (user obj)))
      with false
      by (destruct Hempty as [-> | ->]; simpl;
          [| rewrite andb_false_r]; reflexivity).
    destruct (split_before_first (ord "@") (email (user obj))) as [pieces ->].
    reflexivity. }
  repeat split.
  - exact Hnames.
  - intros Hfirst Hlast Hleft Hright.
    rewrite Hnames, strip_full_name by assumption. reflexivity.
  - intros Hempty local rest Hsplit Hlocal.
    rewrite Hemail, Hsplit, before_first_app by assumption. reflexivity.
  - intros Hempty Habsent.
    rewrite Hemail, before_first_absent by assumption. reflexivity.
Qed.

Lemma full_name_stripped_or_email_local_witness :
  get_full_name (Samples.full_profile Samples.ada_padded) = Ok (lit "Ada Lovelace")
  /\ get_full_name (Samples.full_profile Samples.ada) = Ok (lit "Ada Lovelace")
  /\ get_full_name (Samples.full_profile Samples.anonymous) = Ok (lit "guest").
Proof.
  split; [| split].
  - apply (proj1 (full_name_stripped_or_email_local
                    (Samples.full_profile Samples.ada_padded)));
      vm_compute; discriminate.
  - apply (proj1 (proj2 (full_name_stripped_or_email_local
                           (Samples.full_profile Samples.ada))));
      try reflexivity; vm_compute; discriminate.
  - apply (proj1 (proj2 (proj2 (full_name_stripped_or_email_local
                                  (Samples.full_profile Samples.anonymous))))
             (or_introl eq_refl) (lit "guest") (lit "example.org"));
      [reflexivity |].
    vm_compute. intuition discriminate.
Defined.

(** C10 as first stated fails: both names of this identity are non-empty,
    yet its full name is not the first name, a space and the last name,
    because the space that begins the first name is stripped. *)
Lemma full_name_not_plain_concatenation :
  first_name (user (Samples.full_profile Samples.ada_padded)) <> []
  /\ last_name (user (Samples.full_profile Samples.ada_padded)) <> []
  /\ get_full_name (Samples.full_profile Samples.ada_padded)
     = Ok (lit "Ada Lovelace")
  /\ get_full_name (Samples.full_profile Samples.ada_padded)
     <> Ok (first_name (user (Samples.full_profile Samples.ada_padded))
            ++ lit " "
            ++ last_name (user (Samples.full_profile Samples.ada_padded))).
Proof.
  repeat split; vm_compute; discriminate.
Qed.

End FullName.

(** ** More on the percentage and the flag *)

Section PercentageOrder.

Implicit Types (obj : Passenger).

(** X1. The percentage is a strictly increasing function of how many of
    the six predicates hold, and one more predicate adds 16 or 17. *)
Theorem percentage_follows_count (p1 p2 : Passenger) :
  exists n1 n2,
    get_profile_completion_percentage p1 = Ok n1
    /\ get_profile_completion_percentage p2 = Ok n2
    /\ (Evaluator.countTrue (Evaluator.predicates p1)
          < Evaluator.countTrue (Evaluator.predicates p2) <-> n1 < n2)
    /\ (Evaluator.countTrue (Evaluator.predicates p2)
          = Evaluator.countTrue (Evaluator.predicates p1) + 1 ->
        16 <= n2 - n1 <= 17).
Proof.
  rewrite !serializer_percentage_count, !countTrue_predicates.
  set (k1 := Evaluator.count _ _ _ _ _ _).
  set (k2 := Evaluator.count _ _ _ _ _ _).
  assert (Hk1 : 0 <= k1 <= 6) by apply count_range.
  assert (Hk2 : 0 <= k2 <= 6) by apply count_range.
  rewrite (int_truediv_mul k1 Hk1), (int_truediv_mul k2 Hk2).
  clearbody k1 k2.
  exists (k1 * 100 / 6), (k2 * 100 / 6).
  split; [reflexivity |]. split; [reflexivity |].
  split; [split |]; intros; Z.div_mod_to_equations; lia.
Qed.

Lemma percentage_follows_count_witness :
  exists n1 n2,
    get_profile_completion_percentage Samples.address_only_profile = Ok n1
    /\ get_profile_completion_percentage (Samples.full_profile Samples.ada) = Ok n2
    /\ n1 < n2.
Proof.
  destruct (percentage_follows_count Samples.address_only_profile
              (Samples.full_profile Samples.ada))
    as (n1 & n2 & H1 & H2 & Horder & _).
  exists n1, n2. split; [exact H1 |]. split; [exact H2 |].
  apply Horder. vm_compute. reflexivity.
Defined.

(** X2. The percentage is 100 exactly when the completeness boolean holds
    and the identity has a phone number; a complete profile has a
    percentage of 83 or 100. *)
Theorem full_percentage_iff_complete_with_phone obj :
  (get_profile_completion_percentage obj = Ok 100
   <-> _calculate_profile_completion obj = true
       /\ phone_number (user obj) <> [])
  /\ (_calculate_profile_completion obj = true ->
      get_profile_completion_percentage obj = Ok 83
      \/ get_profile_completion_percentage obj = Ok 100).
Proof.
  rewrite <- truthy_nonempty, serializer_percentage_count.
  unfold _calculate_profile_completion.
  destruct (truthy (first_name (user obj))), (truthy (last_name (user obj))),
    (truthy (phone_number (user obj))), (is_phone_verified obj),
    (truthy (home_address obj)), (truthy (emergency_contact_name obj)),
    (truthy (emergency_contact_phone obj));
    vm_compute; intuition congruence.
Qed.

Lemma full_percentage_iff_complete_with_phone_witness :
  get_profile_completion_percentage (Samples.full_profile Samples.ada) = Ok 100
  /\ (get_profile_completion_percentage
        (Samples.full_profile Samples.ada_no_phone) = Ok 83
      \/ get_profile_completion_percentage
           (Samples.full_profile Samples.ada_no_phone) = Ok 100).
Proof.
  split.
  - apply (proj1 (full_percentage_iff_complete_with_phone
                    (Samples.full_profile Samples.ada))).
    split; [reflexivity | vm_compute; discriminate].
  - apply (proj2 (full_percentage_iff_complete_with_phone
                    (Samples.full_profile Samples.ada_no_phone))).
    reflexivity.
Defined.

End PercentageOrder.

(** ** Dict entries and columns *)

Lemma str_entry_insert (m : gmap string value) attr v key prior :
  m !! attr = None ->
  Meta.str_entry (<[attr := v]> m) key prior =
    if String.eqb attr key
    then match v with VStr s => s | VBool _ => prior end
    else Meta.str_entry m key prior.
Proof.
  intros Hnone. unfold Meta.str_entry.
  destruct (String.eqb_spec attr key) as [<- | Hne].
  - rewrite lookup_insert_eq. destruct v; reflexivity.
  - rewrite lookup_insert_ne by exact Hne. reflexivity.
Qed.

Lemma bool_entry_insert (m : gmap string value) attr v key prior :
  m !! attr = None ->
  Meta.bool_entry (<[attr := v]> m) key prior =
    if String.eqb attr key
    then match v with VBool b => b | VStr _ => prior end
    else Meta.bool_entry m key prior.
Proof.
  intros Hnone. unfold Meta.bool_entry.
  destruct (String.eqb_spec attr key) as [<- | Hne].
  - rewrite lookup_insert_eq. destruct v; reflexivity.
  - rewrite lookup_insert_ne by exact Hne. reflexivity.
Qed.

Lemma setattr_merged (m : gmap string value) (p : Passenger) attr v :
  m !! attr = None ->
  setattr (Meta.merged m p) attr v = Meta.merged (<[attr := v]> m) p.
Proof.
  intros Hnone. unfold Meta.merged at 2.
  rewrite !(str_entry_insert m attr v _ _ Hnone),
    !(bool_entry_insert m attr v _ _ Hnone).
  unfold setattr.
  destruct v as [s | b];
    repeat match goal with
           | |- context [String.eqb attr ?k] =>
               destruct (String.eqb_spec attr k) as [-> | _];
               [unfold Meta.merged, Meta.str_entry, Meta.bool_entry;
                rewrite ?Hnone; reflexivity |]
           end;
    reflexivity.
Qed.

Lemma assign_merged (data : gmap string value) (p : Passenger) :
  assign data p = Meta.merged data p.
Proof.
  unfold assign.
  apply (map_fold_weak_ind (fun acc m => acc = Meta.merged m p)).
  - destruct p. reflexivity.
  - intros attr v m acc Hnone ->. apply setattr_merged, Hnone.
Qed.

(** ** What an update writes *)

Section MergeSemantics.

Implicit Types (db : gmap Z Passenger) (data : gmap string value).

Lemma perform_update_row (serializer : Serializer) db :
  perform_update serializer db =
    (Ok tt,
     <[user_id (instance serializer) :=
         Meta.updated_row (validated_data serializer) (instance serializer)]> db).
Proof. rewrite perform_update_stores, assign_merged. reflexivity. Qed.

(** X3. [perform_update] always succeeds and stores, under the instance's
    key, the instance with the entries of the validated data written over
    its writable columns and the flag recomputed; the user, the rating and
    the ride count are as they were. *)
Theorem perform_update_merges (serializer : Serializer) db :
  perform_update serializer db =
    (Ok tt,
     <[user_id (instance serializer) :=
         Meta.updated_row (validated_data serializer) (instance serializer)]> db)
  /\ user (Meta.updated_row (validated_data serializer) (instance serializer))
     = user (instance serializer)
  /\ average_rating
       (Meta.updated_row (validated_data serializer) (instance serializer))
     = average_rating (instance serializer)
  /\ total_rides
       (Meta.updated_row (validated_data serializer) (instance serializer))
     = total_rides (instance serializer).
Proof. split; [apply perform_update_row | repeat split]. Qed.

Lemma updated_row_sent_flag data v (p : Passenger) :
  Meta.updated_row (<["is_profile_complete" := v]> data) p
  = Meta.updated_row data p.
Proof.
  unfold Meta.updated_row, Meta.merged, Meta.str_entry, Meta.bool_entry,
    completion_fields, set_is_profile_complete; simpl.
  rewrite !lookup_insert_ne by discriminate. reflexivity.
Qed.

(** X4. An [is_profile_complete] entry sent with an update, like the flag
    the instance carried before, has no effect on what [perform_update]
    leaves in the table. *)
Theorem perform_update_ignores_sent_flag (serializer : Serializer) db v b :
  perform_update
    {| instance := instance serializer;
       validated_data :=
         <["is_profile_complete" := v]> (validated_data serializer) |} db
  = perform_update serializer db
  /\ perform_update
       {| instance := set_is_profile_complete b (instance serializer);
          validated_data := validated_data serializer |} db
     = perform_update serializer db.
Proof.
  rewrite !perform_update_row. simpl. rewrite updated_row_sent_flag.
  split; reflexivity.
Qed.

(** X6. Verification is writable through an update: data that carries
    [is_phone_verified] true passes validation and, on a profile whose two
    names, home address and emergency contact are set, leaves the row
    verified and complete. *)
Theorem update_can_verify_and_complete (passenger : Passenger) db :
  first_name (user passenger) <> [] ->
  last_name (user passenger) <> [] ->
  home_address passenger <> [] ->
  emergency_contact_name passenger <> [] ->
  emergency_contact_phone passenger <> [] ->
  exists row,
    run_validation {[ "is_phone_verified" := VBool true ]}
      = Ok {[ "is_phone_verified" := VBool true ]}
    /\ perform_update
         {| instance := passenger;
            validated_data := {[ "is_phone_verified" := VBool true ]} |} db
       = (Ok tt, <[user_id passenger := row]> db)
    /\ is_phone_verified row = true
    /\ is_profile_complete row = true.
Proof.
  intros Hfirst Hlast Hhome Hname Hphone.
  apply truthy_nonempty in Hfirst, Hlast, Hhome, Hname, Hphone.
  exists (Meta.updated_row {[ "is_phone_verified" := VBool true ]} passenger).
  split; [| split; [apply perform_update_row |]].
  - rewrite run_validation_accepted_phone.
    + apply validate_passes. left.
      rewrite lookup_singleton_ne by discriminate. reflexivity.
    + intros value Hget. rewrite lookup_singleton_ne in Hget by discriminate.
      discriminate.
  - unfold Meta.updated_row, Meta.merged, completion_fields,
      Meta.str_entry, Meta.bool_entry.
    cbn [set_is_profile_complete user home_address emergency_contact_name
         emergency_contact_phone is_phone_verified is_profile_complete].
    rewrite lookup_singleton_eq, !lookup_singleton_ne by discriminate.
    rewrite Hfirst, Hlast, Hhome, Hname, Hphone. split; reflexivity.
Qed.

Lemma update_can_verify_and_complete_witness :
  exists row,
    perform_update
      {| instance :=
           set_is_phone_verified false (Samples.full_profile Samples.ada);
         validated_data := {[ "is_phone_verified" := VBool true ]} |} ∅
      = (Ok tt, <[7 := row]> ∅)
    /\ is_profile_complete row = true.
Proof.
  destruct (update_can_verify_and_complete
              (set_is_phone_verified false (Samples.full_profile Samples.ada)) ∅)
    as (row & _ & Hrow & _ & Hflag).
  1-5: vm_compute; discriminate.
  exists row. split; [exact Hrow | exact Hflag].
Defined.

End MergeSemantics.

(** ** What a create writes, and what neither touches *)

Section CreatePath.

Implicit Types (db : gmap Z Passenger) (data : gmap string value).

Lemma entry_outside_fields data (fields : gset string) key :
  dom data ⊆ fields -> key ∉ fields -> data !! key = None.
Proof. intros Hdom Hkey. apply not_elem_of_dom. set_solver. Qed.

Lemma all_unverified (b1 b2 b3 b4 b5 : bool) : all [b1; b2; b3; b4; b5; false] = false.
Proof. destruct b1, b2, b3, b4, b5; reflexivity. Qed.

(** X7. A create by a passenger-type identity without a profile, from data
    of the create serializer's fields, stores the defaults with the
    entries of the data written over them: the new row is never verified
    and never complete, its rating is 5.00 and its rides 0. *)
Theorem create_stores_unverified_incomplete (request : Request) data db :
  user_type (request_user request) = lit "passenger" ->
  db !! pk (request_user request) = None ->
  dom data ⊆ Meta.create_fields ->
  exists row,
    create request data db = (Ok row, <[pk (request_user request) := row]> db)
    /\ row = Meta.merged data (Passenger_defaults (request_user request))
    /\ is_phone_verified row = false
    /\ is_profile_complete row = false
    /\ average_rating row = 500
    /\ total_rides row = 0.
Proof.
  intros Htype Hfree Hdom.
  assert (Hverified : data !! "is_phone_verified" = None)
    by (apply (entry_outside_fields data Meta.create_fields);
        [exact Hdom | vm_compute; intuition discriminate]).
  assert (Hflag : data !! "is_profile_complete" = None)
    by (apply (entry_outside_fields data Meta.create_fields);
        [exact Hdom | vm_compute; intuition discriminate]).
  exists (Meta.merged data (Passenger_defaults (request_user request))).
  assert (Hunverified :
    is_phone_verified
      (Meta.merged data (Passenger_defaults (request_user request))) = false)
    by (unfold Meta.merged, Meta.bool_entry; cbn [is_phone_verified];
        rewrite Hverified; reflexivity).
  assert (Hsame :
    set_is_profile_complete false
      (Meta.merged data (Passenger_defaults (request_user request)))
    = Meta.merged data (Passenger_defaults (request_user request))).
  { unfold Meta.merged, Meta.bool_entry, set_is_profile_complete.
    cbn [user home_address work_address emergency_contact_name
         emergency_contact_phone preferred_payment_method preferred_car_type
         average_rating total_rides is_phone_verified is_profile_complete
         Passenger_defaults].
    rewrite Hflag. reflexivity. }
  split; [| split; [reflexivity | split; [exact Hunverified |]]].
  - rewrite (create_inserts request data db Htype Hfree), assign_merged.
    unfold _calculate_profile_completion.
    rewrite Hunverified, all_unverified, Hsame. reflexivity.
  - rewrite <- Hsame. repeat split.
Qed.

Lemma create_stores_unverified_incomplete_witness :
  exists row,
    create {| request_user := Samples.ada |} Samples.contact_fields ∅
      = (Ok row, <[7 := row]> ∅)
    /\ is_profile_complete row = false.
Proof.
  destruct (create_stores_unverified_incomplete
              {| request_user := Samples.ada |} Samples.contact_fields ∅)
    as (row & Hrow & _ & _ & Hflag & _).
  - reflexivity.
  - reflexivity.
  - apply (bool_decide_unpack (dom Samples.contact_fields ⊆ Meta.create_fields)).
    vm_compute. exact I.
  - exists row. split; [exact Hrow | exact Hflag].
Defined.

Lemma create_cases (request : Request) data db :
  (exists e, create request data db = (Raise e, db))
  \/ (exists row,
        create request data db =
          (Ok row, <[pk (request_user request) := row]> db)
        /\ user row = request_user request
        /\ db !! pk (request_user request) = None).
Proof.
  destruct (decide (user_type (request_user request) = lit "passenger"))
    as [Htype | Htype];
    [destruct (db !! pk (request_user request)) eqn:Hrow |].
  - left. apply create_refuses. right. congruence.
  - right. eexists. split; [| split; [| reflexivity]].
    + rewrite (create_inserts request data db Htype Hrow).
      unfold user_id. cbn [user set_is_profile_complete].
      rewrite assign_user. reflexivity.
    + cbn [user set_is_profile_complete]. apply assign_user.
  - left. apply create_refuses. left. exact Htype.
Qed.

(** X8. One profile per identity: where the identity has a row, a create
    by it raises IntegrityError and leaves the table as it is; so after a
    create that succeeded, every create under the same key fails. *)
Theorem create_refused_when_profile_exists (request : Request) data db :
  (forall row,
      user_type (request_user request) = lit "passenger" ->
      db !! pk (request_user request) = Some row ->
      create request data db = (Raise IntegrityError, db))
  /\ (forall row db' (again : Request) data',
      create request data db = (Ok row, db') ->
      user_type (request_user again) = lit "passenger" ->
      pk (request_user again) = pk (request_user request) ->
      create again data' db' = (Raise IntegrityError, db')).
Proof.
  assert (Hexists : forall (r : Request) d t row,
    user_type (request_user r) = lit "passenger" ->
    t !! pk (request_user r) = Some row ->
    create r d t = (Raise IntegrityError, t)).
  { intros r d t row Htype Hrow. unfold create.
    rewrite bool_decide_eq_false_2 by (intros Hne; apply Hne, Htype).
    unfold mbind, objects_create, user_id. rewrite assign_user.
    cbn [user Passenger_defaults]. rewrite Hrow. reflexivity. }
  split; [intros row; apply Hexists |].
  intros row db' again data' Hcreate Htype Hkey.
  destruct (create_cases request data db) as [[e He] | (row' & Hrow' & _ & _)];
    [congruence |].
  rewrite Hrow' in Hcreate. injection Hcreate as <- <-.
  apply (Hexists again data' _ row' Htype).
  rewrite Hkey. apply lookup_insert_eq.
Qed.

Lemma create_refused_when_profile_exists_witness :
  exists row db',
    create {| request_user := Samples.ada |} Samples.contact_fields ∅
      = (Ok row, db')
    /\ create {| request_user := Samples.ada_no_phone |} ∅ db'
       = (Raise IntegrityError, db').
Proof.
  pose proof (create_inserts {| request_user := Samples.ada |}
                Samples.contact_fields ∅ eq_refl eq_refl) as Hrow.
  cbv zeta in Hrow.
  eexists _, _. split; [exact Hrow |].
  apply (proj2 (create_refused_when_profile_exists
                  {| request_user := Samples.ada |} Samples.contact_fields ∅)
           _ _ {| request_user := Samples.ada_no_phone |} ∅ Hrow);
    reflexivity.
Defined.

(** X9. A create and an update change no row but the one under the acting
    key, whatever their outcome. *)
Theorem writes_touch_one_row :
  (forall (request : Request) data db outcome db' key,
      create request data db = (outcome, db') ->
      key <> pk (request_user request) ->
      db' !! key = db !! key)
  /\ (forall (serializer : Serializer) db outcome db' key,
      perform_update serializer db = (outcome, db') ->
      key <> user_id (instance serializer) ->
      db' !! key = db !! key).
Proof.
  split.
  - intros request data db outcome db' key Hcreate Hkey.
    destruct (create_cases request data db) as [[e He] | (row & Hrow & _ & _)].
    + rewrite He in Hcreate. injection Hcreate as _ <-. reflexivity.
    + rewrite Hrow in Hcreate. injection Hcreate as _ <-.
      apply lookup_insert_ne. congruence.
  - intros serializer db outcome db' key Hupdate Hkey.
    rewrite perform_update_row in Hupdate. injection Hupdate as _ <-.
    apply lookup_insert_ne. congruence.
Qed.

Lemma writes_touch_one_row_witness :
  snd (perform_update
         {| instance := Samples.full_profile Samples.ada;
            validated_data := Samples.contact_fields |}
         {[ 9 := Samples.full_profile Samples.rider ]}) !! 9
  = Some (Samples.full_profile Samples.rider).
Proof.
  rewrite (proj2 writes_touch_one_row
             {| instance := Samples.full_profile Samples.ada;
                validated_data := Samples.contact_fields |}
             {[ 9 := Samples.full_profile Samples.rider ]} _ _ 9
             (surjective_pairing _)).
  - apply lookup_singleton_eq.
  - vm_compute. discriminate.
Defined.

End CreatePath.

(** ** Who sees which rows *)

Section AccessRules.

Implicit Types (db : gmap Z Passenger) (request : Request).

Lemma own_rows_lookup request db key row :
  filter (fun entry => user_id (snd entry) = pk (request_user request)) db !! key
    = Some row
  <-> db !! key = Some row /\ user_id row = pk (request_user request).
Proof. rewrite map_lookup_filter_Some. reflexivity. Qed.

Lemma own_rows_keyed request db :
  Meta.table_keyed db ->
  filter (fun entry => user_id (snd entry) = pk (request_user request)) db
  = match db !! pk (request_user request) with
    | Some row => {[ pk (request_user request) := row ]}
    | None => ∅
    end.
Proof.
  intros Hkeyed. apply map_eq. intros key.
  destruct (filter _ db !! key) as [row |] eqn:Hown.
  - apply own_rows_lookup in Hown as [Hrow Huser].
    pose proof (Hkeyed key row Hrow) as Hkey.
    assert (key = pk (request_user request)) as -> by congruence.
    rewrite Hrow, lookup_singleton_eq. reflexivity.
  - destruct (db !! pk (request_user request)) as [row |] eqn:Hrow;
      [| rewrite lookup_empty; reflexivity].
    destruct (decide (pk (request_user request) = key)) as [<- | Hne];
      [| rewrite lookup_singleton_ne by exact Hne; reflexivity].
    assert (Hsome : filter (fun entry => user_id (snd entry)
                                          = pk (request_user request)) db
                      !! pk (request_user request) = Some row)
      by (apply own_rows_lookup; split; [exact Hrow | exact (Hkeyed _ _ Hrow)]).
    congruence.
Qed.

(** X11. Who sees what: the queryset of a staff member is the whole table;
    the queryset of anyone else holds exactly the rows of the table whose
    user is the requester, which in a table keyed by user is the
    requester's own row or nothing. *)
Theorem get_queryset_own_rows_only request db :
  (is_staff (request_user request) = true -> Access.get_queryset request db = db)
  /\ (is_staff (request_user request) = false ->
      forall key row,
        Access.get_queryset request db !! key = Some row
        <-> db !! key = Some row /\ user_id row = pk (request_user request))
  /\ (is_staff (request_user request) = false ->
      Meta.table_keyed db ->
      Access.get_queryset request db
      = match db !! pk (request_user request) with
        | Some row => {[ pk (request_user request) := row ]}
        | None => ∅
        end).
Proof.
  unfold Access.get_queryset. split; [| split].
  - intros ->. reflexivity.
  - intros -> key row. apply own_rows_lookup.
  - intros -> Hkeyed. apply own_rows_keyed, Hkeyed.
Qed.

Lemma get_queryset_own_rows_only_witness :
  Access.get_queryset {| request_user := Samples.ada |}
    {[ 7 := Samples.full_profile Samples.ada;
       9 := Samples.full_profile Samples.rider ]}
  = {[ 7 := Samples.full_profile Samples.ada ]}.
Proof.
  rewrite (proj2 (proj2 (get_queryset_own_rows_only
                           {| request_user := Samples.ada |} _)) eq_refl).
  - reflexivity.
  - intros key row Hget.
    apply lookup_insert_Some in Hget as [[<- <-] | [_ Hget]]; [reflexivity |].
    apply lookup_singleton_Some in Hget as [<- <-]. reflexivity.
Defined.

(** X12. The function-based list view serves the rows of [get_queryset]:
    its count is the number of its results; for a requester who is not
    staff, in a table keyed by user, that is the serialization of the
    requester's own row, or an empty list. *)
Theorem passenger_list_simple_rows {R : Type} (serialize : Passenger -> R)
  request db :
  Access.passenger_list_simple serialize request db
  = {| Access.count := size (Access.get_queryset request db);
       Access.results :=
         map (fun entry => serialize (snd entry))
           (map_to_list (Access.get_queryset request db)) |}
  /\ Access.count (Access.passenger_list_simple serialize request db)
     = length (Access.results (Access.passenger_list_simple serialize request db))
  /\ (is_staff (request_user request) = false ->
      Meta.table_keyed db ->
      Access.results (Access.passenger_list_simple serialize request db)
      = match db !! pk (request_user request) with
        | Some row => [serialize row]
        | None => []
        end).
Proof.
  assert (Hrows : Access.passenger_list_simple serialize request db
    = {| Access.count := size (Access.get_queryset request db);
         Access.results :=
           map (fun entry => serialize (snd entry))
             (map_to_list (Access.get_queryset request db)) |})
    by (unfold Access.passenger_list_simple, Access.get_queryset;
        destruct (is_staff (request_user request)); reflexivity).
  split; [exact Hrows |]. rewrite Hrows. cbn [Access.count Access.results]. split.
  - rewrite length_map, length_map_to_list. reflexivity.
  - intros Hstaff Hkeyed. unfold Access.get_queryset. rewrite Hstaff.
    cbn [negb]. rewrite (own_rows_keyed request db Hkeyed).
    destruct (db !! pk (request_user request)) as [row |].
    + rewrite map_to_list_singleton. reflexivity.
    + rewrite map_to_list_empty. reflexivity.
Qed.

Lemma passenger_list_simple_rows_witness :
  Access.results
    (Access.passenger_list_simple get_profile_completion_percentage
       {| request_user := Samples.ada |}
       {[ 7 := Samples.full_profile Samples.ada ]})
  = [Ok 100].
Proof.
  rewrite (proj2 (proj2 (passenger_list_simple_rows
                           get_profile_completion_percentage
                           {| request_user := Samples.ada |} _)) eq_refl).
  - reflexivity.
  - intros key row Hget. apply lookup_singleton_Some in Hget as [<- <-].
    reflexivity.
Defined.

End AccessRules.

(** ** Validation and the stored contact *)

Section ValidatedUpdates.

Implicit Types (db : gmap Z Passenger) (data : gmap string value).






End ValidatedUpdates.

(** ** The shape of the full name *)

Section FullNameShape.

Implicit Types (s t : str) (obj : Passenger).

Lemma lstrip_twice s : lstrip (lstrip s) = lstrip s.
Proof.
  induction s as [| c s IH]; [reflexivity |]. simpl.
  destruct (isspace c) eqn:Hc; [exact IH |]. simpl. rewrite Hc. reflexivity.
Qed.

Lemma lstrip_fixed_head (c : Z) s : lstrip (c :: s) = c :: s -> isspace c = false.
Proof.
  simpl. destruct (isspace c); [| reflexivity].
  intros Hfixed. pose proof (lstrip_length s) as Hlen.
  rewrite Hfixed in Hlen. simpl in Hlen. lia.
Qed.

Lemma lstrip_whitespace s : forallb isspace s = true -> lstrip s = [].
Proof.
  induction s as [| c s IH]; [reflexivity |]. simpl.
  destruct (isspace c); [exact IH | discriminate].
Qed.

(** What [lstrip] removes is a prefix. *)
Lemma lstrip_suffix s : exists removed, s = removed ++ lstrip s.
Proof.
  induction s as [| c s [removed IH]]; [exists []; reflexivity |]. simpl.
  destruct (isspace c); [| exists []; reflexivity].
  exists (c :: removed). simpl. rewrite <- IH. reflexivity.
Qed.

(** What [rstrip] removes is a suffix. *)
Lemma rstrip_prefix s : exists removed, s = rstrip s ++ removed.
Proof.
  unfold rstrip. destruct (lstrip_suffix (rev s)) as [removed Hrev].
  exists (rev removed).
  rewrite <- rev_app_distr, <- Hrev, rev_involutive. reflexivity.
Qed.

Lemma rstrip_twice s : rstrip (rstrip s) = rstrip s.
Proof. unfold rstrip. rewrite rev_involutive, lstrip_twice. reflexivity. Qed.

Lemma lstrip_rstrip_fixed s : lstrip s = s -> lstrip (rstrip s) = rstrip s.
Proof.
  intros Hfixed. destruct (rstrip_prefix s) as [removed Hprefix].
  destruct (rstrip s) as [| c t] eqn:Hkept; [reflexivity |].
  rewrite Hprefix in Hfixed. simpl in Hfixed.
  apply lstrip_fixed_head in Hfixed. simpl. rewrite Hfixed. reflexivity.
Qed.

Lemma strip_fixed s : lstrip (strip s) = strip s /\ rstrip (strip s) = strip s.
Proof.
  unfold strip. split; [| apply rstrip_twice].
  apply lstrip_rstrip_fixed, lstrip_twice.
Qed.

Lemma before_first_without (sep : Z) s : ~ In sep (Evaluator.before_first sep s).
Proof.
  induction s as [| c s IH]; simpl; [tauto |].
  destruct (Z.eqb_spec c sep) as [_ | Hne]; simpl; [tauto |].
  intros [Heq | Hin]; [congruence | exact (IH Hin)].
Qed.

Lemma get_full_name_cases obj :
  (first_name (user obj) <> [] /\ last_name (user obj) <> []
   /\ get_full_name obj =
        Ok (strip (first_name (user obj) ++ lit " " ++ last_name (user obj))))
  \/ ((first_name (user obj) = [] \/ last_name (user obj) = [])
      /\ get_full_name obj =
           Ok (Evaluator.before_first (ord "@") (email (user obj)))).
Proof.
  unfold get_full_name.
  destruct (first_name (user obj)) as [| c first];
    [right; split; [left; reflexivity |] |
     destruct (last_name (user obj)) as [| d last];
       [right; split; [right; reflexivity |] | left; repeat split; discriminate]];
    destruct (split_before_first (ord "@") (email (user obj))) as [pieces ->];
    reflexivity.
Qed.

(** X15. The full name is always produced, never an error.  When it comes
    from the two names it neither begins nor ends with whitespace; when it
    comes from the email it holds no at sign. *)
Theorem get_full_name_shape obj :
  exists name,
    get_full_name obj = Ok name
    /\ (first_name (user obj) <> [] -> last_name (user obj) <> [] ->
        lstrip name = name /\ rstrip name = name)
    /\ (first_name (user obj) = [] \/ last_name (user obj) = [] ->
        ~ In (ord "@") name).
Proof.
  destruct (get_full_name_cases obj)
    as [(Hfirst & Hlast & ->) | (Hempty & ->)]; eexists; split; try reflexivity.
  - split; [intros _ _; apply strip_fixed |].
    intros [Hempty | Hempty]; exfalso;
      [exact (Hfirst Hempty) | exact (Hlast Hempty)].
  - split; [| intros _; apply before_first_without].
    intros Hfirst Hlast. exfalso.
    destruct Hempty as [Hempty | Hempty];
      [exact (Hfirst Hempty) | exact (Hlast Hempty)].
Qed.

Lemma get_full_name_shape_witness :
  exists name,
    get_full_name (Samples.full_profile Samples.ada_padded) = Ok name
    /\ lstrip name = name.
Proof.
  destruct (get_full_name_shape (Samples.full_profile Samples.ada_padded))
    as (name & Hname & Hstripped & _).
  exists name. split; [exact Hname |].
  apply Hstripped; vm_compute; discriminate.
Defined.

(** X16. Names made of whitespace only count as set: the full name is then
    the empty string, and the email is not used. *)
Theorem get_full_name_of_blank_names obj :
  first_name (user obj) <> [] ->
  last_name (user obj) <> [] ->
  forallb isspace (first_name (user obj)) = true ->
  forallb isspace (last_name (user obj)) = true ->
  get_full_name obj = Ok [].
Proof.
  intros Hfirst Hlast Hblank_first Hblank_last.
  destruct (get_full_name_cases obj) as [(_ & _ & ->) | ([Hempty | Hempty] & _)];
    [| exfalso; exact (Hfirst Hempty) | exfalso; exact (Hlast Hempty)].
  unfold strip. rewrite lstrip_whitespace; [reflexivity |].
  rewrite !forallb_app, Hblank_first, Hblank_last. reflexivity.
Qed.

Lemma get_full_name_of_blank_names_witness :
  get_full_name
    (Samples.full_profile
       {| pk := 7; email := lit "ada@example.org"; user_type := lit "passenger";
          phone_number := []; first_name := lit " "; last_name := [9; 160];
          is_staff := false; is_active := true |})
  = Ok [].
Proof.
  apply get_full_name_of_blank_names;
    first [reflexivity | vm_compute; discriminate].
Defined.

End FullNameShape.

(** ** The phone pattern of the model and the rule of the serializer *)

Section PhoneChecks.

(** The class of decimal digits the pattern is matched with. *)
Variable is_decimal : Z -> bool.

Implicit Types (s value ds : str).

Lemma digits_of_digits (lo hi : nat) ds :
  forallb is_decimal ds = true ->
  (lo <= length ds <= hi)%nat ->
  Validators.digits is_decimal lo hi Validators.at_end ds = true.
Proof.
  revert lo ds. induction hi as [| hi IH]; intros lo ds Hdigits Hlen.
  - destruct ds; [| simpl in Hlen; lia].
    destruct lo; [reflexivity | simpl in Hlen; lia].
  - destruct ds as [| d ds]; simpl.
    + destruct lo; [reflexivity | simpl in Hlen; lia].
    + simpl in Hdigits, Hlen. apply andb_true_iff in Hdigits as [-> Hdigits].
      rewrite (IH (Nat.pred lo) ds Hdigits) by lia. reflexivity.
Qed.

Lemma digits_inv (lo hi : nat) s :
  Validators.digits is_decimal lo hi Validators.at_end s = true ->
  exists ds tail,
    s = ds ++ tail /\ forallb is_decimal ds = true
    /\ (lo <= length ds <= hi)%nat /\ Validators.at_end tail = true.
Proof.
  revert lo s. induction hi as [| hi IH]; intros lo s Hmatch; simpl in Hmatch.
  - apply andb_true_iff in Hmatch as [Hlo Hend]. apply Nat.eqb_eq in Hlo.
    exists [], s. repeat split; try assumption; simpl; lia.
  - apply orb_true_iff in Hmatch as [Hmore | Hstop].
    + destruct s as [| d s]; [discriminate |].
      apply andb_true_iff in Hmore as [Hd Hmore].
      destruct (IH _ _ Hmore) as (ds & tail & -> & Hds & Hlen & Hend).
      exists (d :: ds), tail. simpl. rewrite Hd, Hds.
      repeat split; try assumption; lia.
    + apply andb_true_iff in Hstop as [Hlo Hend]. apply Nat.eqb_eq in Hlo.
      exists [], s. repeat split; try assumption; simpl; lia.
Qed.

Lemma optional_inv (c : Z) (rest : str -> bool) s :
  Validators.optional c rest s = true ->
  (exists s', s = c :: s' /\ rest s' = true) \/ rest s = true.
Proof.
  unfold Validators.optional. intros Hmatch.
  apply orb_true_iff in Hmatch as [Hwith | Hwithout]; [left | right; assumption].
  destruct s as [| d s']; [discriminate |].
  apply andb_true_iff in Hwith as [Hd Hrest]. apply Z.eqb_eq in Hd as ->.
  exists s'. split; [reflexivity | exact Hrest].
Qed.

(** X17. The validator of the model and the rule of the serializer
    disagree on plain digits: a string of 9 to 15 ASCII digits matches the
    pattern of the column, and the serializer's rule refuses it for its
    missing plus sign. *)
Theorem digits_pass_pattern_but_not_rule ds :
  (forall c, Validators.ascii_digit c = true -> is_decimal c = true) ->
  forallb Validators.ascii_digit ds = true ->
  (9 <= length ds <= 15)%nat ->
  Validators.phone_validator is_decimal ds = Ok tt
  /\ validate_emergency_contact_phone ds =
       Raise (ValidationError (Msg "Emergency contact phone must start with '+'.")).
Proof.
  intros Hascii Hdigits Hlen. split.
  - unfold Validators.phone_validator, Validators.phone_pattern,
      Validators.optional.
    rewrite (digits_of_digits 9 15 ds), !orb_true_r; [reflexivity | | exact Hlen].
    apply forallb_forall. intros c Hc. apply Hascii.
    exact (proj1 (forallb_forall _ _) Hdigits c Hc).
  - apply validate_emergency_contact_phone_rejects.
    + destruct ds; [simpl in Hlen; lia | discriminate].
    + destruct ds as [| d ds]; [reflexivity |]. simpl in Hdigits.
      apply andb_true_iff in Hdigits as [Hd _].
      change (lit "+") with [43]. cbn [startswith].
      destruct (Z.eqb_spec 43 d) as [<- | _]; [discriminate | reflexivity].
Qed.

(** X18. A value that passes both the pattern of the column and the rule
    of the serializer is a plus sign, then 9 to 16 decimal digits, then
    nothing or one newline. *)
Theorem pattern_and_rule_shape value :
  is_decimal (ord "+") = false ->
  is_decimal (ord "1") = true ->
  Validators.phone_validator is_decimal value = Ok tt ->
  validate_emergency_contact_phone value = Ok value ->
  exists ds tail,
    value = ord "+" :: ds ++ tail
    /\ forallb is_decimal ds = true
    /\ (9 <= length ds <= 16)%nat
    /\ (tail = [] \/ tail = [10]).
Proof.
  intros Hplus Hone Hpattern Hrule.
  unfold Validators.phone_validator in Hpattern.
  destruct (Validators.phone_pattern is_decimal value) eqn:Hmatch;
    [clear Hpattern | discriminate].
  assert (Htail : forall tail, Validators.at_end tail = true ->
                               tail = [] \/ tail = [10]).
  { intros [| c [| c' tail]]; simpl; intros Hend;
      [left; reflexivity | right; apply Z.eqb_eq in Hend; congruence
      | discriminate]. }
  assert (Hinner : forall s,
    Validators.optional (ord "1")
      (Validators.digits is_decimal 9 15 Validators.at_end) s = true ->
    exists ds tail, s = ds ++ tail /\ forallb is_decimal ds = true
      /\ (9 <= length ds <= 16)%nat /\ (tail = [] \/ tail = [10])).
  { intros s Hs. apply optional_inv in Hs as [(s' & -> & Hs) | Hs];
      apply digits_inv in Hs as (ds & tail & -> & Hds & Hlen & Hend).
    - exists (ord "1" :: ds), tail. simpl. rewrite Hone, Hds.
      repeat split; try lia. apply Htail, Hend.
    - exists ds, tail. repeat split; try assumption; try lia.
      apply Htail, Hend. }
  unfold Validators.phone_pattern in Hmatch.
  apply optional_inv in Hmatch as [(s' & -> & Hs) | Hs].
  - destruct (Hinner s' Hs) as (ds & tail & -> & Hrest).
    exists ds, tail. split; [reflexivity | exact Hrest].
  - destruct (Hinner value Hs) as (ds & tail & -> & Hds & Hlen & _).
    exfalso. destruct ds as [| d ds]; [simpl in Hlen; lia |].
    simpl in Hds. apply andb_true_iff in Hds as [Hd _].
    unfold validate_emergency_contact_phone in Hrule.
    change (lit "+") with [43] in Hrule. change (ord "+") with 43 in Hplus.
    cbn [app truthy startswith] in Hrule.
    destruct (Z.eqb_spec 43 d) as [<- | _]; [congruence | discriminate].
Qed.

End PhoneChecks.

Lemma digits_pass_pattern_but_not_rule_witness :
  Validators.phone_validator Validators.ascii_digit (lit "0700123456") = Ok tt
  /\ validate_emergency_contact_phone (lit "0700123456") =
       Raise (ValidationError (Msg "Emergency contact phone must start with '+'.")).
Proof.
  apply (digits_pass_pattern_but_not_rule Validators.ascii_digit (lit "0700123456"));
    [intros c Hc; exact Hc | reflexivity | vm_compute; split; lia].
Defined.

Lemma pattern_and_rule_shape_witness :
  exists ds tail,
    lit "+1234567890" = ord "+" :: ds ++ tail
    /\ forallb Validators.ascii_digit ds = true
    /\ (9 <= length ds <= 16)%nat
    /\ (tail = [] \/ tail = [10]).
Proof.
  apply (pattern_and_rule_shape Validators.ascii_digit (lit "+1234567890"));
    reflexivity.
Defined.

(** ** The user manager *)

Section SuperuserFlags.

Context {Store UserObject : Type}.
Variable normalize_email : str -> str.
Variable save_new_user :
  str -> str -> gmap string value -> Store -> res UserObject * Store.

Implicit Types (email password : str) (extra_fields : gmap string value)
  (store : Store).

Lemma setdefault_union key default extra_fields :
  Managers.setdefault key default extra_fields
  = extra_fields ∪ {[ key := default ]}.
Proof.
  unfold Managers.setdefault. apply map_eq. intros k.
  rewrite lookup_union.
  destruct (extra_fields !! key) as [v |] eqn:Hkey.
  - destruct (decide (key = k)) as [<- | Hne].
    + rewrite Hkey, lookup_singleton_eq. reflexivity.
    + rewrite lookup_singleton_ne by exact Hne.
      destruct (extra_fields !! k); reflexivity.
  - destruct (decide (key = k)) as [<- | Hne].
    + rewrite lookup_insert_eq, Hkey, lookup_singleton_eq. reflexivity.
    + rewrite lookup_insert_ne, lookup_singleton_ne by exact Hne.
      destruct (extra_fields !! k); reflexivity.
Qed.

(** The three [setdefault] calls together: the caller's entries, and the
    defaults where the caller gave none. *)
Lemma setdefaults_union extra_fields :
  Managers.setdefault "is_active" (VBool true)
    (Managers.setdefault "is_superuser" (VBool true)
       (Managers.setdefault "is_staff" (VBool true) extra_fields))
  = extra_fields ∪ Managers.superuser_defaults.
Proof.
  rewrite !setdefault_union, <- !(assoc_L (∪)). f_equal; reflexivity.
Qed.

Lemma filled_lookup extra_fields key :
  (extra_fields ∪ Managers.superuser_defaults) !! key
  = match extra_fields !! key with
    | Some v => Some v
    | None => Managers.superuser_defaults !! key
    end.
Proof.
  rewrite lookup_union.
  destruct (extra_fields !! key), (Managers.superuser_defaults !! key);
    reflexivity.
Qed.

(** X19. [create_superuser] refuses a caller who passes [is_staff], or
    else [is_superuser], as anything but True: it raises the ValueError of
    that flag and stores nothing, whatever the email. *)
Theorem create_superuser_refuses_cleared_flag email password extra_fields store v :
  v <> VBool true ->
  (extra_fields !! "is_staff" = Some v ->
   Managers.create_superuser normalize_email save_new_user
     email password extra_fields store
   = (Managers.RaiseValueError "Superuser must have is_staff=True.", store))
  /\ (extra_fields !! "is_staff" = None
      \/ extra_fields !! "is_staff" = Some (VBool true) ->
      extra_fields !! "is_superuser" = Some v ->
      Managers.create_superuser normalize_email save_new_user
        email password extra_fields store
      = (Managers.RaiseValueError "Superuser must have is_superuser=True.", store)).
Proof.
  intros Hv. unfold Managers.create_superuser.
  rewrite setdefaults_union, !filled_lookup. split.
  - intros ->. destruct v as [s | [|]]; try reflexivity. congruence.
  - intros Hstaff ->.
    destruct Hstaff as [-> | ->];
      destruct v as [s | [|]]; try reflexivity; congruence.
Qed.

(** X20. Otherwise [create_superuser] is [create_user] on the caller's
    fields with [is_staff], [is_superuser] and [is_active] set to True
    where the caller gave none: every entry of the caller is passed on,
    and the two flags passed on are True.  [create_user] raises a
    ValueError and stores nothing when the email is empty, and else saves
    under the normalized email. *)
Theorem create_superuser_fills_defaults email password extra_fields store :
  (extra_fields !! "is_staff" = None
   \/ extra_fields !! "is_staff" = Some (VBool true)) ->
  (extra_fields !! "is_superuser" = None
   \/ extra_fields !! "is_superuser" = Some (VBool true)) ->
  Managers.create_superuser normalize_email save_new_user
    email password extra_fields store
  = Managers.create_user normalize_email save_new_user
      email password (extra_fields ∪ Managers.superuser_defaults) store
  /\ (forall key v,
        extra_fields !! key = Some v ->
        (extra_fields ∪ Managers.superuser_defaults) !! key = Some v)
  /\ (extra_fields ∪ Managers.superuser_defaults) !! "is_staff"
     = Some (VBool true)
  /\ (extra_fields ∪ Managers.superuser_defaults) !! "is_superuser"
     = Some (VBool true)
  /\ (email = [] ->
      Managers.create_user normalize_email save_new_user
        email password (extra_fields ∪ Managers.superuser_defaults) store
      = (Managers.RaiseValueError "The Email must be set", store))
  /\ (email <> [] ->
      Managers.create_user normalize_email save_new_user
        email password (extra_fields ∪ Managers.superuser_defaults) store
      = (Managers.Stored
           (fst (save_new_user (normalize_email email) password
                   (extra_fields ∪ Managers.superuser_defaults) store)),
         snd (save_new_user (normalize_email email) password
                (extra_fields ∪ Managers.superuser_defaults) store))).
Proof.
  intros Hstaff Hsuper.
  assert (Hstaff' : (extra_fields ∪ Managers.superuser_defaults) !! "is_staff"
                    = Some (VBool true))
    by (rewrite filled_lookup; destruct Hstaff as [-> | ->]; reflexivity).
  assert (Hsuper' : (extra_fields ∪ Managers.superuser_defaults) !! "is_superuser"
                    = Some (VBool true))
    by (rewrite filled_lookup; destruct Hsuper as [-> | ->]; reflexivity).
  repeat apply conj.
  - unfold Managers.create_superuser.
    rewrite setdefaults_union, Hstaff', Hsuper'. reflexivity.
  - intros key v Hget. rewrite filled_lookup, Hget. reflexivity.
  - exact Hstaff'.
  - exact Hsuper'.
  - intros ->. reflexivity.
  - intros Hemail. unfold Managers.create_user.
    apply truthy_nonempty in Hemail. rewrite Hemail. cbn [negb].
    destruct (save_new_user _ _ _ _). reflexivity.
Qed.

End SuperuserFlags.

Lemma create_superuser_refuses_cleared_flag_witness :
  Managers.create_superuser (fun email => email)
    (fun email _ _ store => (Ok email, email :: store))
    (lit "root@example.org") (lit "secret")
    {[ "is_staff" := VBool false ]} []
  = (Managers.RaiseValueError "Superuser must have is_staff=True.", []).
Proof.
  apply (proj1 (create_superuser_refuses_cleared_flag (fun email => email)
                  (fun email _ _ store => (Ok email, email :: store))
                  (lit "root@example.org") (lit "secret")
                  {[ "is_staff" := VBool false ]} [] (VBool false)
                  ltac:(discriminate))).
  reflexivity.
Defined.

Lemma create_superuser_fills_defaults_witness :
  Managers.create_superuser (fun email => email)
    (fun email _ _ store => (Ok email, email :: store))
    (lit "root@example.org") (lit "secret")
    {[ "is_active" := VBool false ]} []
  = Managers.create_user (fun email => email)
      (fun email _ _ store => (Ok email, email :: store))
      (lit "root@example.org") (lit "secret")
      ({[ "is_active" := VBool false ]} ∪ Managers.superuser_defaults) []
  /\ ({[ "is_active" := VBool false ]} ∪ Managers.superuser_defaults)
       !! "is_active" = Some (VBool false).
Proof.
  destruct (create_superuser_fills_defaults (fun email => email)
              (fun email _ _ store => (Ok email, email :: store))
              (lit "root@example.org") (lit "secret")
              {[ "is_active" := VBool false ]} [])
    as (Hcreate & Hkept & _); [left; reflexivity | left; reflexivity |].
  split; [exact Hcreate |]. apply Hkept. reflexivity.
Defined.

(** ** The two rules of the profile serializer, and what escapes them *)

Section SerializerRules.

Implicit Types (data : gmap string value) (value name phone : str).

(** C6, as the code has it. A non-empty value that does not start with a
    plus sign, handed to the emergency contact phone rule of
    [PassengerSerializer], is refused with that rule's validation error;
    the rule refuses 1234567 and accepts +1234567890. *)
Theorem emergency_contact_phone_rule :
  (forall value,
      value <> [] ->
      startswith value (lit "+") = false ->
      validate_emergency_contact_phone value =
        Raise (ValidationError
                 (Msg "Emergency contact phone must start with '+'.")))
  /\ validate_emergency_contact_phone (lit "1234567") =
       Raise (ValidationError
                (Msg "Emergency contact phone must start with '+'."))
  /\ validate_emergency_contact_phone (lit "+1234567890") =
       Ok (lit "+1234567890").
Proof.
  split; [| split; reflexivity].
  intros value Hvalue Hplus. unfold validate_emergency_contact_phone.
  destruct value as [| c value]; [congruence |].
  cbn [truthy]. rewrite Hplus. reflexivity.
Qed.

Lemma emergency_contact_phone_rule_witness :
  validate_emergency_contact_phone (lit "0700123456") =
    Raise (ValidationError (Msg "Emergency contact phone must start with '+'.")).
Proof.
  apply (proj1 emergency_contact_phone_rule (lit "0700123456"));
    [vm_compute; discriminate | reflexivity].
Defined.

(** C6 as first stated fails, in two ways.  On the create path no rule asks
    for the plus sign: 0700123456 is non-empty, does not start with a plus
    sign, fits the length and the pattern of the column, and a create
    stores it.  On the update path the field trims the value before the
    rule sees it: the candidate value with a space before its plus sign
    does not start with a plus sign, and what the rule is handed is
    accepted. *)
Lemma phone_without_plus_accepted :
  (lit "0700123456" <> []
   /\ startswith (lit "0700123456") (lit "+") = false
   /\ (length (lit "0700123456") <= 15)%nat
   /\ Validators.phone_validator Validators.ascii_digit (lit "0700123456") = Ok tt
   /\ exists row,
        create {| request_user := Samples.ada |}
          {[ "emergency_contact_phone" := VStr (lit "0700123456") ]} ∅
        = (Ok row, <[7 := row]> ∅)
        /\ emergency_contact_phone row = lit "0700123456")
  /\ (lit " +1234567890 " <> []
      /\ startswith (lit " +1234567890 ") (lit "+") = false
      /\ strip (lit " +1234567890 ") = lit "+1234567890"
      /\ validate_emergency_contact_phone (strip (lit " +1234567890 "))
         = Ok (lit "+1234567890")).
Proof.
  split.
  - split; [vm_compute; discriminate |]. split; [reflexivity |].
    split; [vm_compute; lia |]. split; [reflexivity |].
    exists (Meta.merged {[ "emergency_contact_phone" := VStr (lit "0700123456") ]}
              (Passenger_defaults Samples.ada)).
    split; vm_compute; reflexivity.
  - split; [vm_compute; discriminate |]. repeat split.
Qed.

(** C7, as the code has it. A dict handed to [validate] of
    [PassengerSerializer] in which the emergency contact name is non-empty
    and the emergency contact phone is absent or empty is refused with the
    validation error filed under emergency_contact_phone.  The rule is
    one-directional: a dict in which both are empty passes, and so does a
    dict with a phone and no name. *)
Theorem emergency_contact_name_rule :
  (forall data name,
      data !! "emergency_contact_name" = Some (VStr name) ->
      name <> [] ->
      data !! "emergency_contact_phone" = None
      \/ data !! "emergency_contact_phone" = Some (VStr []) ->
      validate data =
        Raise (ValidationError (Fields
          {[ "emergency_contact_phone" :=
               "Phone number is required when emergency contact name is provided." ]})))
  /\ (forall data,
      data !! "emergency_contact_name" = Some (VStr []) ->
      data !! "emergency_contact_phone" = Some (VStr []) ->
      validate data = Ok data)
  /\ (forall data phone,
      data !! "emergency_contact_phone" = Some (VStr phone) ->
      phone <> [] ->
      data !! "emergency_contact_name" = None
      \/ data !! "emergency_contact_name" = Some (VStr []) ->
      validate data = Ok data).
Proof.
  split; [| split].
  - intros data name Hname Hnonempty Hphone. unfold validate.
    rewrite Hname. cbn [truthy_get].
    rewrite (proj2 (truthy_nonempty name) Hnonempty).
    destruct Hphone as [-> | ->]; reflexivity.
  - intros data Hname Hphone. unfold validate.
    rewrite Hname. reflexivity.
  - intros data phone Hphone Hnonempty Hname. unfold validate.
    destruct Hname as [-> | ->]; reflexivity.
Qed.

Lemma emergency_contact_name_rule_witness :
  validate {[ "emergency_contact_name" := VStr (lit "Jane");
              "emergency_contact_phone" := VStr [] ]} =
    Raise (ValidationError (Fields
      {[ "emergency_contact_phone" :=
           "Phone number is required when emergency contact name is provided." ]}))
  /\ validate {[ "emergency_contact_name" := VStr [];
                 "emergency_contact_phone" := VStr [] ]} =
       Ok {[ "emergency_contact_name" := VStr [];
             "emergency_contact_phone" := VStr [] ]}
  /\ validate {[ "emergency_contact_phone" := VStr (lit "+1234567890") ]} =
       Ok {[ "emergency_contact_phone" := VStr (lit "+1234567890") ]}.
Proof.
  split; [| split].
  - apply (proj1 emergency_contact_name_rule
             {[ "emergency_contact_name" := VStr (lit "Jane");
                "emergency_contact_phone" := VStr [] ]} (lit "Jane")).
    + reflexivity.
    + vm_compute. discriminate.
    + right. reflexivity.
  - apply (proj1 (proj2 emergency_contact_name_rule)
             {[ "emergency_contact_name" := VStr [];
                "emergency_contact_phone" := VStr [] ]});
      reflexivity.
  - apply (proj2 (proj2 emergency_contact_name_rule)
             {[ "emergency_contact_phone" := VStr (lit "+1234567890") ]}
             (lit "+1234567890")).
    + reflexivity.
    + vm_compute. discriminate.
    + left. reflexivity.
Defined.

(** C7 as first stated fails, in two ways.  On the create path no rule
    ties the name to the phone: a create from a name and an empty phone
    stores the name without a phone.  On the update path the field trims
    the name before the rule sees it: a name of spaces is non-empty, and
    what [validate] is handed, with an empty phone, passes. *)
Lemma contact_name_without_phone_accepted :
  (exists row,
      create {| request_user := Samples.ada |}
        {[ "emergency_contact_name" := VStr (lit "Jane");
           "emergency_contact_phone" := VStr [] ]} ∅
      = (Ok row, <[7 := row]> ∅)
      /\ emergency_contact_name row = lit "Jane"
      /\ emergency_contact_phone row = [])
  /\ (lit "   " <> []
      /\ strip (lit "   ") = []
      /\ validate {[ "emergency_contact_name" := VStr (strip (lit "   "));
                     "emergency_contact_phone" := VStr [] ]}
         = Ok {[ "emergency_contact_name" := VStr (strip (lit "   "));
                 "emergency_contact_phone" := VStr [] ]}).
Proof.
  split.
  - exists (Meta.merged {[ "emergency_contact_name" := VStr (lit "Jane");
                           "emergency_contact_phone" := VStr [] ]}
              (Passenger_defaults Samples.ada)).
    repeat split; vm_compute; reflexivity.
  - split; [vm_compute; discriminate |]. split; vm_compute; reflexivity.
Qed.

End SerializerRules.
